(** * Workflow catalog: parser heuristics and catalog store

    A shallow embedding of [app/services/parser.py] and [app/database.py]
    of the workflow-catalog service, together with the properties of the
    node analyzer, the compatibility scorer, the difficulty classifier,
    the record builder and the SQLite-backed store.

    Conventions of the embedding:
    - a Python [str] is a [string]; a character stands for the code point
      of the same number (U+0000 .. U+00FF);
    - a Python [set] of strings is a [gset string], [sorted(list(s))] is
      a merge sort of its elements under the code-point order;
    - a Python [float] is a binary64 primitive float, so the penalties
      0.3 and 0.2 are rounded exactly as CPython rounds them;
    - the clock and the UUID generator are explicit state ([Sys.Env]);
    - the SQLite file is a value of type [Database.Db]. *)

From Stdlib Require Import ZArith Ascii Uint63 PrimFloat SpecFloat FloatOps.
From stdpp Require Import base decidable option list sorting gmap sets strings.

Set Warnings "-inexact-float".
Set Default Proof Using "Type".

(** ** Python string primitives *)

Module Py.

Definition chr (n : N) : Ascii.ascii := Ascii.ascii_of_N n.
Definition ord (c : Ascii.ascii) : N := Ascii.N_of_ascii c.

(** [c.lower()] on one code point below U+0100: the ASCII capitals and
    the Latin-1 capitals (U+00C0 .. U+00DE without the multiplication
    sign U+00D7) move up by 32, everything else is kept. *)
Definition is_upper (c : Ascii.ascii) : bool :=
  let n := ord c in
  ((65 <=? n) && (n <=? 90) ||
   (192 <=? n) && (n <=? 222) && negb (n =? 215))%N.

Definition lower_char (c : Ascii.ascii) : Ascii.ascii :=
  if is_upper c then chr (ord c + 32) else c.

(** [s.lower()] *)
Fixpoint lower (s : string) : string :=
  match s with
  | EmptyString => EmptyString
  | String c s' => String (lower_char c) (lower s')
  end.

(** [s.startswith(p)] *)
Definition startswith (s p : string) : bool := String.prefix p s.

(** [sub in s] for strings *)
Fixpoint contains (sub s : string) : bool :=
  String.prefix sub s ||
  match s with
  | EmptyString => false
  | String _ s' => contains sub s'
  end.

(** [s.replace(old, '')] for a non-empty [old]: every occurrence of
    [old], scanning from the left and without overlap, is dropped.
    [skip] counts the characters of a match still to be dropped. *)
Fixpoint remove_from (old : string) (skip : nat) (s : string) : string :=
  match s with
  | EmptyString => EmptyString
  | String c s' =>
      match skip with
      | S k => remove_from old k s'
      | O =>
          if String.prefix old s
          then remove_from old (String.length old - 1) s'
          else String c (remove_from old 0 s')
      end
  end.

Definition remove_all (old s : string) : string := remove_from old 0 s.

(** [s.split(sep)] for a one-character separator; the result is never
    empty. *)
Fixpoint split (sep : Ascii.ascii) (s : string) : list string :=
  match s with
  | EmptyString => [EmptyString]
  | String c s' =>
      let parts := split sep s' in
      if Ascii.eqb c sep then EmptyString :: parts
      else match parts with
           | p :: ps => String c p :: ps
           | [] => [String c EmptyString]
           end
  end.

(** [parts[-1]] of a non-empty list *)
Definition last_part (parts : list string) : string :=
  List.last parts EmptyString.

(** [any(k in text for k in keywords)] *)
Definition any_in (keywords : list string) (text : string) : bool :=
  existsb (fun k => contains k text) keywords.

(** [sorted(list(s))] on a set of strings *)
Definition sorted (s : gset string) : list string :=
  merge_sort String.le (elements s).

(** A string is lower-cased when [lower] leaves it alone. *)
Definition is_lower (s : string) : Prop := lower s = s.

(** *** [round(x, ndigits)] on floats

    CPython rounds the exact binary value of [x] to [ndigits] decimal
    places, ties to even, and returns the double nearest to that
    decimal.  [n / 10^ndigits] below is that double as long as [n] and
    the power of ten are exactly representable, which holds for every
    score the parser produces. *)
Definition round_half_even (num den : Z) : Z :=
  let q := (num / den)%Z in
  let r := (num mod den)%Z in
  if (2 * r <? den)%Z then q
  else if (den <? 2 * r)%Z then (q + 1)%Z
  else if Z.even q then q else (q + 1)%Z.

Definition float_of_nonneg (z : Z) : float :=
  PrimFloat.of_uint63 (Uint63.of_Z z).

Definition round (x : float) (ndigits : nat) : float :=
  match Prim2SF x with
  | S754_finite s m e =>
      let scale := (10 ^ Z.of_nat ndigits)%Z in
      let num := (Z.pos m * scale)%Z in
      let n := if (0 <=? e)%Z then (num * 2 ^ e)%Z
               else round_half_even num (2 ^ (- e))%Z in
      let r := PrimFloat.div (float_of_nonneg n) (float_of_nonneg scale) in
      if s then PrimFloat.opp r else r
  | _ => x
  end.

End Py.

(** ** Python values

    The parser hands a workflow over as a [dict], and the store hands a
    row back as a [dict].  To compare the two, both are also given as
    values of the dynamic type below; [eq] is Python's [==] on them. *)

Module Value.

#[local] Unset Elimination Schemes.
Inductive t :=
| None_
| Bool (b : bool)
| Int (z : Z)
| Float (f : float)
| Str (s : string)
| List (l : list t)
| Dict (d : list (string * t)).
#[local] Set Elimination Schemes.

(** [d.get(key)] on the items of a dict *)
Fixpoint get (key : string) (d : list (string * t)) : option t :=
  match d with
  | [] => None
  | (k, v) :: d' => if String.eqb k key then Some v else get key d'
  end.

Definition float_of_Z (z : Z) : float :=
  if (z <? 0)%Z then PrimFloat.opp (Py.float_of_nonneg (- z))
  else Py.float_of_nonneg z.

Definition int_of_bool (b : bool) : Z := if b then 1%Z else 0%Z.

(** [a == b].  [bool] is a subtype of [int]; an [int] meets a [float]
    through its conversion, which is exact for the integers a row
    holds; values of different kinds are unequal. *)
Fixpoint eq (a b : t) : bool :=
  match a, b with
  | None_, None_ => true
  | Bool x, Bool y => Bool.eqb x y
  | Bool x, Int y => (int_of_bool x =? y)%Z
  | Int x, Bool y => (x =? int_of_bool y)%Z
  | Int x, Int y => (x =? y)%Z
  | Bool x, Float y => PrimFloat.eqb (float_of_Z (int_of_bool x)) y
  | Float x, Bool y => PrimFloat.eqb x (float_of_Z (int_of_bool y))
  | Int x, Float y => PrimFloat.eqb (float_of_Z x) y
  | Float x, Int y => PrimFloat.eqb x (float_of_Z y)
  | Float x, Float y => PrimFloat.eqb x y
  | Str x, Str y => String.eqb x y
  | List l, List m =>
      (fix items (l m : list t) : bool :=
         match l, m with
         | [], [] => true
         | x :: l', y :: m' => eq x y && items l' m'
         | _, _ => false
         end) l m
  | Dict d, Dict e =>
      (length d =? length e)%nat &&
      (fix entries (d : list (string * t)) : bool :=
         match d with
         | [] => true
         | (k, v) :: d' =>
             match get k e with
             | Some w => eq v w
             | None => false
             end && entries d'
         end) d
  | _, _ => false
  end.

Definition of_option (o : option string) : t :=
  match o with Some s => Str s | None => None_ end.

Definition of_strings (l : list string) : t := List (Str <$> l).

(** What a REAL column reads as: a float, or [None] for NULL. *)
Definition of_real (o : option float) : t :=
  match o with Some f => Float f | None => None_ end.

End Value.

(** ** The clock and the identifier source

    [datetime.utcnow()] and [uuid.uuid4()] read the outside world.  The
    world is an explicit value: the sequence of readings the clock will
    give and the sequence of identifiers the generator will draw, each
    with the number of values already consumed. *)

Module Sys.

Record datetime := {
  year : N; month : N; day : N;
  hour : N; minute : N; second : N; microsecond : N;
}.

Definition digit (n : N) : Ascii.ascii := Py.chr (48 + n mod 10).

(** [n] in decimal, zero-padded to [width] digits. *)
Fixpoint zero_padded (width : nat) (n : N) : string :=
  match width with
  | O => EmptyString
  | S w => zero_padded w (n / 10) +:+ String (digit n) EmptyString
  end.

(** [d.isoformat()] of a naive datetime: the fraction is printed only
    when the microsecond field is not zero. *)
Definition isoformat (d : datetime) : string :=
  zero_padded 4 (year d) +:+ "-" +:+ zero_padded 2 (month d) +:+ "-" +:+
  zero_padded 2 (day d) +:+ "T" +:+ zero_padded 2 (hour d) +:+ ":" +:+
  zero_padded 2 (minute d) +:+ ":" +:+ zero_padded 2 (second d) +:+
  (if (microsecond d =? 0)%N then EmptyString
   else "." +:+ zero_padded 6 (microsecond d)).

(** The field ranges of a [datetime] object: the constructor refuses
    anything else, so every reading of the clock is within them. *)
Definition valid (d : datetime) : bool :=
  ((1 <=? year d) && (year d <=? 9999) &&
   (1 <=? month d) && (month d <=? 12) &&
   (1 <=? day d) && (day d <=? 31) &&
   (hour d <? 24) && (minute d <? 60) && (second d <? 60) &&
   (microsecond d <? 1000000))%N.

Record Env := {
  clock : nat -> datetime;
  clock_reads : nat;
  uuids : nat -> string;
  uuids_drawn : nat;
}.

(** [datetime.utcnow()] *)
Definition utcnow (env : Env) : datetime * Env :=
  (clock env (clock_reads env),
   {| clock := clock env; clock_reads := S (clock_reads env);
      uuids := uuids env; uuids_drawn := uuids_drawn env |}).

(** [str(uuid.uuid4())] *)
Definition uuid4 (env : Env) : string * Env :=
  (uuids env (uuids_drawn env),
   {| clock := clock env; clock_reads := clock_reads env;
      uuids := uuids env; uuids_drawn := S (uuids_drawn env) |}).

End Sys.

(** ** The parser, [app/services/parser.py] *)

Module Parser.

(** One element of the workflow's [nodes] list: the ['type'] entry
    (absent when [None]), [parameters.content] and the keys of the
    [credentials] dict in their order. *)
Record Node := {
  type : option string;
  content : option string;
  credential_keys : list string;
}.

(** [node.get('type', '')] *)
Definition get_type (node : Node) : string := default EmptyString (type node).

(** Known local services in Pozi AI Studio *)
Definition LOCAL_SERVICES : list string :=
  ["ollama"; "postgres"; "qdrant"; "supabase"; "neo4j";
   "langfuse"; "flowise"; "redis"; "minio"; "clickhouse"].

(** Node types that indicate local AI usage *)
Definition LOCAL_AI_NODES : gset string :=
  list_to_set
    ["@n8n/n8n-nodes-langchain.agent";
     "@n8n/n8n-nodes-langchain.chainLlm";
     "@n8n/n8n-nodes-langchain.chainSummarization";
     "@n8n/n8n-nodes-langchain.chainRetrievalQa";
     "@n8n/n8n-nodes-langchain.lmChatOllama";
     "@n8n/n8n-nodes-langchain.lmOllama";
     "@n8n/n8n-nodes-langchain.embeddingsOllama"].

(** *** [_analyze_nodes] *)

(** The six local variables of the loop. *)
Record Acc := {
  acc_integrations : gset string;
  acc_node_types : gset string;
  acc_has_webhook : bool;
  acc_has_schedule : bool;
  acc_has_local_ai : bool;
  acc_credential_types : gset string;
}.

Definition acc_init : Acc :=
  {| acc_integrations := ∅; acc_node_types := ∅;
     acc_has_webhook := false; acc_has_schedule := false;
     acc_has_local_ai := false; acc_credential_types := ∅ |}.

(** The integration name a node type contributes, if any. *)
Definition integration_of (node_type : string) : option string :=
  if Py.startswith node_type "n8n-nodes-base." then
    Some (Py.lower (Py.remove_all "n8n-nodes-base." node_type))
  else if Py.startswith node_type "@n8n/" then
    let parts := Py.split "."%char node_type in
    if (1 <? length parts)%nat then Some (Py.lower (Py.last_part parts))
    else None
  else None.

(** One iteration of [for node in nodes]. *)
Definition analyze_node (a : Acc) (node : Node) : Acc :=
  let node_type := get_type node in
  {| acc_node_types := {[ node_type ]} ∪ acc_node_types a;
     acc_has_webhook :=
       if Py.contains "webhook" (Py.lower node_type) then true
       else acc_has_webhook a;
     acc_has_schedule :=
       if Py.contains "schedule" (Py.lower node_type)
          || Py.contains "cron" (Py.lower node_type) then true
       else acc_has_schedule a;
     acc_has_local_ai :=
       if bool_decide (node_type ∈ LOCAL_AI_NODES) then true
       else acc_has_local_ai a;
     acc_integrations :=
       match integration_of node_type with
       | Some i => {[ i ]} ∪ acc_integrations a
       | None => acc_integrations a
       end;
     acc_credential_types :=
       foldl (fun s cred_type => {[ Py.lower cred_type ]} ∪ s)
             (acc_credential_types a) (credential_keys node) |}.

Record NodeAnalysis := {
  integrations : list string;
  node_types : list string;
  has_webhook : bool;
  has_schedule : bool;
  has_local_ai : bool;
  credential_types : list string;
}.

Definition _analyze_nodes (nodes : list Node) : NodeAnalysis :=
  let a := foldl analyze_node acc_init nodes in
  {| integrations := Py.sorted (acc_integrations a);
     node_types := Py.sorted (acc_node_types a);
     has_webhook := acc_has_webhook a;
     has_schedule := acc_has_schedule a;
     has_local_ai := acc_has_local_ai a;
     credential_types := Py.sorted (acc_credential_types a) |}.

(** *** [_extract_requirements] *)

Record Credential := {
  cred_type : string;
  cred_required : bool;
  cred_local : bool;
  cred_description : option string;
}.

Record Requirements := {
  credentials : list Credential;
  services : list string;
  external_apis : list string;
  min_n8n_version : string;
}.

(** [any(svc in cred_type for svc in self.LOCAL_SERVICES)] *)
Definition is_local (cred_type : string) : bool :=
  existsb (fun svc => Py.contains svc cred_type) LOCAL_SERVICES.

(** The three local variables of the loop over the credential types. *)
Record ReqAcc := {
  req_credentials : list Credential;
  req_services : gset string;
  req_external_apis : gset string;
}.

Definition requirement_step (r : ReqAcc) (cred_type : string) : ReqAcc :=
  let local := is_local cred_type in
  {| req_credentials :=
       req_credentials r ++
       [ {| cred_type := cred_type; cred_required := true;
            cred_local := local; cred_description := None |} ];
     req_services :=
       if local then
         foldl (fun s svc =>
                  if Py.contains svc cred_type then {[ svc ]} ∪ s else s)
               (req_services r) LOCAL_SERVICES
       else req_services r;
     req_external_apis :=
       if local then req_external_apis r
       else {[ cred_type ]} ∪ req_external_apis r |}.

Definition _extract_requirements
    (nodes : list Node) (node_analysis : NodeAnalysis) : Requirements :=
  let r := foldl requirement_step
                 {| req_credentials := []; req_services := ∅;
                    req_external_apis := ∅ |}
                 (credential_types node_analysis) in
  {| credentials := req_credentials r;
     services := Py.sorted (req_services r);
     external_apis := Py.sorted (req_external_apis r);
     min_n8n_version := "1.0.0" |}.

(** *** [_analyze_compatibility] *)

Inductive CompatibilityStatus :=
| fully_compatible
| partially_compatible
| requires_external
| incompatible.

Record Compatibility := {
  local_ai : bool;
  requires_external_api : bool;
  works_offline : bool;
  pozi_compatible : bool;
  status : CompatibilityStatus;
  compatibility_score : float;
}.

(** The value of the local variable [score] when the three penalty
    tests have run. *)
Definition penalised_score
    (local_ai requires_external_api : bool) (n_services : nat) : float :=
  let score := 1.0%float in
  let score := if requires_external_api then (score - 0.3)%float else score in
  let score :=
    if negb local_ai && requires_external_api then (score - 0.3)%float
    else score in
  let score := if (n_services =? 0)%nat then (score - 0.2)%float else score in
  score.

Definition _analyze_compatibility
    (requirements : Requirements) (node_analysis : NodeAnalysis)
    : Compatibility :=
  let local_ai := has_local_ai node_analysis in
  let requires_external_api :=
    (0 <? length (external_apis requirements))%nat in
  let works_offline := negb requires_external_api in
  let score :=
    penalised_score local_ai requires_external_api
                    (length (services requirements)) in
  let status :=
    if (0.8 <=? score)%float then fully_compatible
    else if (0.5 <=? score)%float then partially_compatible
    else if requires_external_api then requires_external
    else incompatible in
  let pozi_compatible := (0.5 <=? score)%float in
  {| local_ai := local_ai;
     requires_external_api := requires_external_api;
     works_offline := works_offline;
     pozi_compatible := pozi_compatible;
     status := status;
     compatibility_score := Py.round score 2 |}.

(** The local variable [score] of [_analyze_compatibility], before it
    is rounded for the record. *)
Definition raw_score
    (requirements : Requirements) (node_analysis : NodeAnalysis) : float :=
  penalised_score (has_local_ai node_analysis)
                  (0 <? length (external_apis requirements))%nat
                  (length (services requirements)).

(** The compatibility record [parse_workflow] computes for a node
    list: analysis, then requirements, then compatibility. *)
Definition compatibility_of (nodes : list Node) : Compatibility :=
  let node_analysis := _analyze_nodes nodes in
  _analyze_compatibility (_extract_requirements nodes node_analysis)
                         node_analysis.

(** *** [_determine_difficulty] and [_estimate_runtime] *)

Inductive DifficultyLevel := beginner | intermediate | advanced.

Definition _determine_difficulty (node_analysis : NodeAnalysis)
    : DifficultyLevel :=
  let node_count := length (node_types node_analysis) in
  if (node_count <=? 5)%nat then beginner
  else if (node_count <=? 15)%nat then intermediate
  else advanced.

Definition _estimate_runtime (node_analysis : NodeAnalysis) : string :=
  let node_count := length (node_types node_analysis) in
  if (node_count <=? 5)%nat then "< 1 minute"
  else if (node_count <=? 15)%nat then "1-5 minutes"
  else "5+ minutes".

(** *** The workflow document and the classifier *)

(** An element of the document's [tags] list: a dict, of which only
    the ['name'] entry is read, or a plain string. *)
Inductive Tag :=
| TagDict (name : option string)
| TagStr (s : string).

(** What [json.load] returns, as far as the parser reads it.
    [doc_description] is [None] when the key is absent and [Some None]
    when it holds [null]; [doc_tags] is [None] when the key holds
    something that is not a list and [Some []] when it is absent. *)
Record WorkflowData := {
  doc_name : option string;
  doc_description : option (option string);
  doc_nodes : list Node;
  doc_tags : option (list Tag);
}.

Definition stickyNote : string := "n8n-nodes-base.stickyNote".

Definition _extract_description (workflow_data : WorkflowData)
    : option string :=
  match doc_description workflow_data with
  | Some d => d
  | None =>
      let note node :=
        if bool_decide (type node = Some stickyNote) then
          let content := default EmptyString (content node) in
          if (20 <? String.length content)%nat
          then Some (String.substring 0 500 content) else None
        else None in
      list_find (fun node => is_Some (note node)) (doc_nodes workflow_data)
        ≫= fun found => note found.2
  end.

(** [f"{name} {description or ''}".lower()] *)
Definition search_text (name : string) (description : option string)
    : string :=
  Py.lower (name +:+ " " +:+ default EmptyString description).

(** [x in l] on a list of strings *)
Definition mem (x : string) (l : list string) : bool := bool_decide (x ∈ l).

Definition _categorize_workflow
    (name : string) (description : option string)
    (node_analysis : NodeAnalysis) : string * string :=
  let text := search_text name description in
  let integrations := integrations node_analysis in
  if Py.any_in ["ai"; "rag"; "llm"; "gpt"; "agent"; "langchain"] text then
    if Py.contains "rag" text || Py.contains "retrieval" text then
      ("AI & Machine Learning", "RAG & Document Processing")
    else if Py.contains "agent" text then
      ("AI & Machine Learning", "AI Agents")
    else ("AI & Machine Learning", "General AI")
  else if existsb (fun svc => mem svc integrations)
            ["gmail"; "email"; "slack"; "telegram"; "discord"; "whatsapp"]
  then
    if mem "gmail" integrations || Py.contains "email" text then
      ("Communication & Messaging", "Email")
    else if mem "slack" integrations then
      ("Communication & Messaging", "Slack")
    else if mem "telegram" integrations then
      ("Communication & Messaging", "Telegram")
    else ("Communication & Messaging", "General")
  else if Py.any_in ["data"; "analytics"; "database"; "sql"; "etl"] text then
    ("Data & Analytics", "Data Processing")
  else if Py.any_in ["business"; "productivity"; "automation"; "workflow"]
                    text then
    ("Business & Productivity", "Automation")
  else ("Utilities & Tools", "General").

Definition tag_keywords : list (string * list string) :=
  [("ai", ["ai"; "artificial intelligence"; "machine learning"]);
   ("rag", ["rag"; "retrieval"; "augmented generation"]);
   ("automation", ["automation"; "automate"; "automatic"]);
   ("email", ["email"; "gmail"; "mail"]);
   ("chat", ["chat"; "messaging"; "conversation"]);
   ("document", ["document"; "pdf"; "file"]);
   ("data", ["data"; "database"; "sql"]);
   ("local", ["local"; "offline"; "self-hosted"])].

Definition tag_text (t : Tag) : string :=
  match t with
  | TagDict name => default EmptyString name
  | TagStr s => s
  end.

Definition _extract_tags
    (workflow_data : WorkflowData) (name : string)
    (description : option string) (node_analysis : NodeAnalysis)
    : list string :=
  let tags : gset string :=
    match doc_tags workflow_data with
    | Some existing_tags => list_to_set (tag_text <$> existing_tags)
    | None => ∅
    end in
  let text := search_text name description in
  let tags :=
    foldl (fun (tags : gset string) kw =>
             if Py.any_in kw.2 text then {[ kw.1 ]} ∪ tags else tags)
          tags tag_keywords in
  let tags :=
    foldl (fun (tags : gset string) integration => {[ integration ]} ∪ tags)
          tags (take 5 (integrations node_analysis)) in
  take 10 (Py.sorted tags).

Definition _determine_department (category : string) (tags : list string)
    : option string :=
  if Py.contains "AI" category then Some "Engineering"
  else if Py.contains "Communication" category then Some "Operations"
  else if Py.contains "Data" category then Some "Analytics"
  else if Py.contains "Business" category then Some "Executive"
  else None.

Definition use_case_patterns : list (string * list string) :=
  [("Document Q&A", ["document"; "q&a"; "question"; "answer"]);
   ("Email Automation", ["email"; "gmail"; "automate"; "respond"]);
   ("Data Processing", ["data"; "process"; "transform"; "etl"]);
   ("Chat Bot", ["chat"; "bot"; "conversation"; "assistant"]);
   ("Content Generation", ["generate"; "create"; "content"; "write"]);
   ("Research Assistant", ["research"; "analyze"; "summarize"])].

Definition _extract_use_cases
    (name : string) (description : option string) (category : string)
    : list string :=
  let text := search_text name description in
  let use_cases :=
    omap (fun p : string * list string =>
            if (2 <=? length (filter (fun kw => Py.contains kw text) p.2))%nat
            then Some p.1 else None)
         use_case_patterns in
  take 3 use_cases.

Definition _extract_author (source_repo : string) : string :=
  if Py.contains "/" source_repo
  then default EmptyString (head (Py.split "/"%char source_repo))
  else source_repo.

(** *** [parse_workflow], the record builder *)

Record Metadata := {
  node_count : nat;
  meta_integrations : list string;
  meta_node_types : list string;
  meta_has_webhook : bool;
  meta_has_schedule : bool;
  estimated_runtime : option string;
}.

Record Stats := {
  popularity_score : Z;
  import_count : Z;
  success_rate : float;
  avg_setup_time : option string;
}.

Record Workflow := {
  id : string;
  name : string;
  description : option string;
  category : string;
  subcategory : option string;
  difficulty : DifficultyLevel;
  author : option string;
  source_repo : string;
  source_url : option string;
  json_path : string;
  tags : list string;
  department : option string;
  use_cases : list string;
  metadata : Metadata;
  requirements : Requirements;
  compatibility : Compatibility;
  stats : Stats;
  created_at : string;
  updated_at : string;
  last_synced : option string;
}.

(** The dict literal [parse_workflow] returns, for a given record. *)
Definition credential_dict (c : Credential) : Value.t :=
  Value.Dict
    [("type", Value.Str (cred_type c));
     ("required", Value.Bool (cred_required c));
     ("local", Value.Bool (cred_local c));
     ("description", Value.of_option (cred_description c))].

Definition difficulty_value (d : DifficultyLevel) : string :=
  match d with
  | beginner => "beginner"
  | intermediate => "intermediate"
  | advanced => "advanced"
  end.

Definition status_value (s : CompatibilityStatus) : string :=
  match s with
  | fully_compatible => "fully_compatible"
  | partially_compatible => "partially_compatible"
  | requires_external => "requires_external"
  | incompatible => "incompatible"
  end.

Definition to_dict (w : Workflow) : list (string * Value.t) :=
  [("id", Value.Str (id w));
   ("name", Value.Str (name w));
   ("description", Value.of_option (description w));
   ("category", Value.Str (category w));
   ("subcategory", Value.of_option (subcategory w));
   ("difficulty", Value.Str (difficulty_value (difficulty w)));
   ("author", Value.of_option (author w));
   ("source_repo", Value.Str (source_repo w));
   ("source_url", Value.of_option (source_url w));
   ("json_path", Value.Str (json_path w));
   ("tags", Value.of_strings (tags w));
   ("department", Value.of_option (department w));
   ("use_cases", Value.of_strings (use_cases w));
   ("metadata",
    Value.Dict
      [("node_count", Value.Int (Z.of_nat (node_count (metadata w))));
       ("integrations", Value.of_strings (meta_integrations (metadata w)));
       ("node_types", Value.of_strings (meta_node_types (metadata w)));
       ("has_webhook", Value.Bool (meta_has_webhook (metadata w)));
       ("has_schedule", Value.Bool (meta_has_schedule (metadata w)));
       ("estimated_runtime",
        Value.of_option (estimated_runtime (metadata w)))]);
   ("requirements",
    Value.Dict
      [("credentials",
        Value.List (credential_dict <$> credentials (requirements w)));
       ("services", Value.of_strings (services (requirements w)));
       ("external_apis", Value.of_strings (external_apis (requirements w)));
       ("min_n8n_version", Value.Str (min_n8n_version (requirements w)))]);
   ("compatibility",
    Value.Dict
      [("local_ai", Value.Bool (local_ai (compatibility w)));
       ("requires_external_api",
        Value.Bool (requires_external_api (compatibility w)));
       ("works_offline", Value.Bool (works_offline (compatibility w)));
       ("pozi_compatible", Value.Bool (pozi_compatible (compatibility w)));
       ("status", Value.Str (status_value (status (compatibility w))));
       ("compatibility_score",
        Value.Float (compatibility_score (compatibility w)))]);
   ("stats",
    Value.Dict
      [("popularity_score", Value.Int (popularity_score (stats w)));
       ("import_count", Value.Int (import_count (stats w)));
       ("success_rate", Value.Float (success_rate (stats w)));
       ("avg_setup_time", Value.of_option (avg_setup_time (stats w)))]);
   ("created_at", Value.Str (created_at w));
   ("updated_at", Value.Str (updated_at w));
   ("last_synced", Value.of_option (last_synced w))].

(** A [pathlib.Path]: [str(path)] and [path.stem]. *)
Record Path := {
  path_str : string;
  stem : string;
}.

(** What the body of [parse_workflow] meets at a path.
    - [Unreadable]: [open] or [json.load] raises (no such file, bytes
      that are not UTF-8, text that is not JSON).
    - [Malformed]: the text is JSON, but not a document the statements
      after [json.load] can work on, so one of them raises: a top-level
      value that is not an object ([[]] has no [get]), or an object
      whose ['nodes'] is not a list of node objects ([null] cannot be
      iterated).  Each of these statements comes after the [uuid4]
      call and before the two readings of the clock, which are the
      last entries of the dict literal.
    - [Document]: an object whose entries have the types of
      [WorkflowData]. *)
Inductive Loaded :=
| Unreadable
| Malformed
| Document (workflow_data : WorkflowData).

(** The files under the data directory. *)
Definition Files := string -> Loaded.

Definition parse_workflow
    (files : Files) (json_path : Path) (source_repo : string)
    (env : Sys.Env) : option Workflow * Sys.Env :=
  match files (path_str json_path) with
  | Unreadable => (None, env)
  | Malformed =>
      let '(workflow_id, env) := Sys.uuid4 env in
      (None, env)
  | Document workflow_data =>
      let '(workflow_id, env) := Sys.uuid4 env in
      let name := default (stem json_path) (doc_name workflow_data) in
      let description := _extract_description workflow_data in
      let nodes := doc_nodes workflow_data in
      let node_analysis := _analyze_nodes nodes in
      let '(category, subcategory) :=
        _categorize_workflow name description node_analysis in
      let difficulty := _determine_difficulty node_analysis in
      let requirements := _extract_requirements nodes node_analysis in
      let compatibility :=
        _analyze_compatibility requirements node_analysis in
      let tags := _extract_tags workflow_data name description node_analysis in
      let '(created, env) := Sys.utcnow env in
      let '(updated, env) := Sys.utcnow env in
      (Some
         {| id := workflow_id;
            name := name;
            description := description;
            category := category;
            subcategory := Some subcategory;
            difficulty := difficulty;
            author := Some (_extract_author source_repo);
            source_repo := source_repo;
            source_url := None;
            json_path := path_str json_path;
            tags := tags;
            department := _determine_department category tags;
            use_cases := _extract_use_cases name description category;
            metadata :=
              {| node_count := length nodes;
                 meta_integrations := integrations node_analysis;
                 meta_node_types := node_types node_analysis;
                 meta_has_webhook := has_webhook node_analysis;
                 meta_has_schedule := has_schedule node_analysis;
                 estimated_runtime := Some (_estimate_runtime node_analysis) |};
            requirements := requirements;
            compatibility := compatibility;
            stats :=
              {| popularity_score := 0;
                 import_count := 0;
                 success_rate := 0.0%float;
                 avg_setup_time := None |};
            created_at := Sys.isoformat created;
            updated_at := Sys.isoformat updated;
            last_synced := None |},
       env)
  end.

End Parser.

(** ** [json.dumps] on the values the store serialises *)

Module Json.

Definition quote : Ascii.ascii := Py.chr 34.
Definition backslash : Ascii.ascii := Py.chr 92.

Definition hex_digit (n : N) : Ascii.ascii :=
  if (n <? 10)%N then Py.chr (48 + n) else Py.chr (87 + n).

(** The replacement of one character under [ensure_ascii=True]: the
    two-character escapes, [\u00xx] for every other character outside
    [' ' .. '~'], and the character itself otherwise. *)
Definition escape_char (c : Ascii.ascii) : string :=
  let n := Py.ord c in
  let esc (e : Ascii.ascii) := String backslash (String e EmptyString) in
  if (n =? 34)%N then esc quote
  else if (n =? 92)%N then esc backslash
  else if (n =? 8)%N then esc "b"%char
  else if (n =? 12)%N then esc "f"%char
  else if (n =? 10)%N then esc "n"%char
  else if (n =? 13)%N then esc "r"%char
  else if (n =? 9)%N then esc "t"%char
  else if ((n <? 32) || (126 <? n))%N then
    String backslash
      (String "u" (String "0" (String "0"
         (String (hex_digit (n / 16)) (String (hex_digit (n mod 16))
            EmptyString)))))
  else String c EmptyString.

Fixpoint escape (s : string) : string :=
  match s with
  | EmptyString => EmptyString
  | String c s' => escape_char c +:+ escape s'
  end.

Definition dumps_str (s : string) : string :=
  String quote (escape s +:+ String quote EmptyString).

Definition dumps_bool (b : bool) : string := if b then "true" else "false".

Definition dumps_opt_str (o : option string) : string :=
  match o with Some s => dumps_str s | None => "null" end.

(** A JSON array of already serialised items, [", "] between them. *)
Definition dumps_array (items : list string) : string :=
  "[" +:+ String.concat ", " items +:+ "]".

Definition dumps_str_list (l : list string) : string :=
  dumps_array (dumps_str <$> l).

Definition dumps_credential (c : Parser.Credential) : string :=
  "{" +:+ dumps_str "type" +:+ ": " +:+ dumps_str (Parser.cred_type c) +:+
  ", " +:+ dumps_str "required" +:+ ": " +:+
    dumps_bool (Parser.cred_required c) +:+
  ", " +:+ dumps_str "local" +:+ ": " +:+ dumps_bool (Parser.cred_local c) +:+
  ", " +:+ dumps_str "description" +:+ ": " +:+
    dumps_opt_str (Parser.cred_description c) +:+ "}".

Definition dumps_credentials (l : list Parser.Credential) : string :=
  dumps_array (dumps_credential <$> l).

(** *** [json.loads] on arrays of strings

    The endpoints decode the list-valued columns with [json.loads].  The
    decoder below reads a JSON array of strings the way [json.loads]
    does: white space (space, tab, line feed, carriage return) is
    allowed around the brackets, the items and the commas; a string may
    hold any character but an unescaped double quote, backslash or
    control character; the escapes are the eight two-character ones and
    [\uXXXX].  [None] stands for [JSONDecodeError], and also for what
    lies outside this embedding: a document that is not an array of
    strings, or an escape for a character beyond U+00FF. *)

Inductive Decoder :=
| BeforeArray
| AfterOpen
| InString
| AfterBackslash
| InUnicode (seen : nat) (value : N)
| AfterItem
| AfterComma
| AfterArray.

Definition is_whitespace (c : Ascii.ascii) : bool :=
  let n := Py.ord c in
  ((n =? 32) || (n =? 9) || (n =? 10) || (n =? 13))%N.

Definition hex_value (c : Ascii.ascii) : option N :=
  let n := Py.ord c in
  if ((48 <=? n) && (n <=? 57))%N then Some (n - 48)%N
  else if ((97 <=? n) && (n <=? 102))%N then Some (n - 87)%N
  else if ((65 <=? n) && (n <=? 70))%N then Some (n - 55)%N
  else None.

(** The character a two-character escape stands for. *)
Definition unescape (c : Ascii.ascii) : option Ascii.ascii :=
  let n := Py.ord c in
  if (n =? 34)%N then Some quote
  else if (n =? 92)%N then Some backslash
  else if (n =? 47)%N then Some "/"%char
  else if (n =? 98)%N then Some (Py.chr 8)
  else if (n =? 102)%N then Some (Py.chr 12)
  else if (n =? 110)%N then Some (Py.chr 10)
  else if (n =? 114)%N then Some (Py.chr 13)
  else if (n =? 116)%N then Some (Py.chr 9)
  else None.

(** The decoder reads the text character by character.  [items] holds
    the strings read so far, last first, and [current] the characters of
    the string being read, last first. *)
Fixpoint decode (state : Decoder) (items : list string) (current : string)
    (text : string) : option (list string) :=
  match text with
  | EmptyString =>
      match state with
      | AfterArray => Some (reverse items)
      | _ => None
      end
  | String c text' =>
      match state with
      | BeforeArray =>
          if is_whitespace c then decode BeforeArray items current text'
          else if Ascii.eqb c "[" then decode AfterOpen items current text'
          else None
      | AfterOpen =>
          if is_whitespace c then decode AfterOpen items current text'
          else if Ascii.eqb c "]" then decode AfterArray items current text'
          else if Ascii.eqb c quote
          then decode InString items EmptyString text'
          else None
      | InString =>
          if Ascii.eqb c quote
          then decode AfterItem (String.rev current :: items) EmptyString text'
          else if Ascii.eqb c backslash
          then decode AfterBackslash items current text'
          else if (Py.ord c <? 32)%N then None
          else decode InString items (String c current) text'
      | AfterBackslash =>
          if Ascii.eqb c "u" then decode (InUnicode 0 0) items current text'
          else match unescape c with
               | Some d => decode InString items (String d current) text'
               | None => None
               end
      | InUnicode seen value =>
          match hex_value c with
          | None => None
          | Some h =>
              let value := (16 * value + h)%N in
              if (seen =? 3)%nat then
                if (value <? 256)%N
                then decode InString items (String (Py.chr value) current)
                            text'
                else None
              else decode (InUnicode (S seen) value) items current text'
          end
      | AfterItem =>
          if is_whitespace c then decode AfterItem items current text'
          else if Ascii.eqb c "," then decode AfterComma items current text'
          else if Ascii.eqb c "]" then decode AfterArray items current text'
          else None
      | AfterComma =>
          if is_whitespace c then decode AfterComma items current text'
          else if Ascii.eqb c quote
          then decode InString items EmptyString text'
          else None
      | AfterArray =>
          if is_whitespace c then decode AfterArray items current text'
          else None
      end
  end.

Definition loads_str_list (text : string) : option (list string) :=
  decode BeforeArray [] EmptyString text.

End Json.

(** ** The SQL operators the queries use *)

Module Sql.

(** ASCII case folding of SQLite's built-in [LIKE]: two characters
    match when they are equal, or when both are ASCII letters that
    differ only in case. *)
Definition ascii_fold (c : Ascii.ascii) : N :=
  let n := Py.ord c in
  if ((65 <=? n) && (n <=? 90))%N then (n + 32)%N else n.

Definition eq_nocase (c d : Ascii.ascii) : bool :=
  (ascii_fold c =? ascii_fold d)%N.

(** [text LIKE pattern] without an [ESCAPE] clause: [%] stands for any
    run of characters, [_] for exactly one character. *)
Fixpoint like (pattern text : string) : bool :=
  match pattern with
  | EmptyString =>
      match text with EmptyString => true | _ => false end
  | String p pattern' =>
      if Ascii.eqb p "%" then
        (fix any_suffix (t : string) : bool :=
           like pattern' t ||
           match t with
           | EmptyString => false
           | String _ t' => any_suffix t'
           end) text
      else
        match text with
        | EmptyString => false
        | String c text' =>
            (Ascii.eqb p "_" || eq_nocase p c) && like pattern' text'
        end
  end.

(** [LIMIT limit OFFSET offset]: a negative limit means no limit, a
    negative offset means none. *)
Definition limit_offset {A} (limit offset : Z) (rows : list A) : list A :=
  let rows := drop (Z.to_nat offset) rows in
  if (limit <? 0)%Z then rows else take (Z.to_nat limit) rows.

(** A Python truth value stored in an INTEGER column. *)
Definition flag (b : bool) : Z := if b then 1%Z else 0%Z.

(** Binding a Python [int] to a statement: SQLite integers have 64
    bits, and the [sqlite3] module raises [OverflowError] for an [int]
    outside them, before the statement runs. *)
Definition fits_int64 (z : Z) : bool :=
  ((- 2 ^ 63 <=? z) && (z <? 2 ^ 63))%Z.

(** A Python [float] stored in a REAL column, as it reads back: SQLite
    stores NaN as NULL and keeps no sign on zero; every other float,
    the infinities included, is kept bit for bit. *)
Definition real (f : float) : option float :=
  if PrimFloat.is_nan f then None
  else if PrimFloat.is_zero f then Some 0.0%float
  else Some f.

End Sql.

(** ** The catalog store, [app/database.py] *)

Module Database.

(** A row of the [workflows] table, column by column.  List-valued
    fields are JSON text, flags are 0 or 1, an INTEGER column holds a
    64-bit integer and a REAL column a float or NULL. *)
Record Row := {
  id : string;
  name : string;
  description : option string;
  category : string;
  subcategory : option string;
  difficulty : string;
  author : option string;
  source_repo : string;
  source_url : option string;
  json_path : string;
  tags : string;
  department : option string;
  use_cases : string;
  node_count : Z;
  integrations : string;
  node_types : string;
  has_webhook : Z;
  has_schedule : Z;
  estimated_runtime : option string;
  credentials : string;
  services : string;
  external_apis : string;
  min_n8n_version : string;
  local_ai : Z;
  requires_external_api : Z;
  works_offline : Z;
  pozi_compatible : Z;
  compatibility_status : string;
  compatibility_score : option float;
  popularity_score : Z;
  import_count : Z;
  success_rate : option float;
  avg_setup_time : option string;
  created_at : string;
  updated_at : string;
  last_synced : option string;
}.

(** The table after [init_db]: the rows in insertion order, each with
    the [rowid] SQLite gave it.  [SELECT *] does not show the rowid. *)
Record Db := {
  workflows : list (Z * Row);
}.

Definition init_db (db : option Db) : Db :=
  default {| workflows := [] |} db.

(** The parameter tuple of the [INSERT] statement, as the table holds
    it once the statement has run. *)
Definition row_of_workflow (workflow : Parser.Workflow) : Row :=
  let metadata := Parser.metadata workflow in
  let requirements := Parser.requirements workflow in
  let compatibility := Parser.compatibility workflow in
  let stats := Parser.stats workflow in
  {| id := Parser.id workflow;
     name := Parser.name workflow;
     description := Parser.description workflow;
     category := Parser.category workflow;
     subcategory := Parser.subcategory workflow;
     difficulty := Parser.difficulty_value (Parser.difficulty workflow);
     author := Parser.author workflow;
     source_repo := Parser.source_repo workflow;
     source_url := Parser.source_url workflow;
     json_path := Parser.json_path workflow;
     tags := Json.dumps_str_list (Parser.tags workflow);
     department := Parser.department workflow;
     use_cases := Json.dumps_str_list (Parser.use_cases workflow);
     node_count := Z.of_nat (Parser.node_count metadata);
     integrations := Json.dumps_str_list (Parser.meta_integrations metadata);
     node_types := Json.dumps_str_list (Parser.meta_node_types metadata);
     has_webhook := Sql.flag (Parser.meta_has_webhook metadata);
     has_schedule := Sql.flag (Parser.meta_has_schedule metadata);
     estimated_runtime := Parser.estimated_runtime metadata;
     credentials := Json.dumps_credentials (Parser.credentials requirements);
     services := Json.dumps_str_list (Parser.services requirements);
     external_apis := Json.dumps_str_list (Parser.external_apis requirements);
     min_n8n_version := Parser.min_n8n_version requirements;
     local_ai := Sql.flag (Parser.local_ai compatibility);
     requires_external_api :=
       Sql.flag (Parser.requires_external_api compatibility);
     works_offline := Sql.flag (Parser.works_offline compatibility);
     pozi_compatible := Sql.flag (Parser.pozi_compatible compatibility);
     compatibility_status :=
       Parser.status_value (Parser.status compatibility);
     compatibility_score :=
       Sql.real (Parser.compatibility_score compatibility);
     popularity_score := Parser.popularity_score stats;
     import_count := Parser.import_count stats;
     success_rate := Sql.real (Parser.success_rate stats);
     avg_setup_time := Parser.avg_setup_time stats;
     created_at := Parser.created_at workflow;
     updated_at := Parser.updated_at workflow;
     last_synced := Parser.last_synced workflow |}.

(** [id TEXT PRIMARY KEY]: is the key already taken? *)
Definition has_id (db : Db) (workflow_id : string) : bool :=
  existsb (fun r => String.eqb (id r.2) workflow_id) (workflows db).

Definition next_rowid (db : Db) : Z :=
  (foldr Z.max 0 (fst <$> workflows db) + 1)%Z.

(** Can every [int] of the parameter tuple be bound?  The flags are 0
    or 1; the three others are the record's own. *)
Definition storable (workflow : Parser.Workflow) : bool :=
  Sql.fits_int64
    (Z.of_nat (Parser.node_count (Parser.metadata workflow))) &&
  Sql.fits_int64 (Parser.popularity_score (Parser.stats workflow)) &&
  Sql.fits_int64 (Parser.import_count (Parser.stats workflow)).

(** [insert_workflow]: the new database and the boolean the caller
    gets.  An [int] that cannot be bound and a taken key both raise
    inside the [try]: nothing is stored and the result is [False]. *)
Definition insert_workflow (db : Db) (workflow : Parser.Workflow)
    : Db * bool :=
  if negb (storable workflow) then (db, false)
  else if has_id db (Parser.id workflow) then (db, false)
  else
    ({| workflows :=
          workflows db ++ [(next_rowid db, row_of_workflow workflow)] |},
     true).

(** [get_workflow]: [fetchone] on [SELECT * ... WHERE id = ?]. *)
Definition get_workflow (db : Db) (workflow_id : string) : option Row :=
  snd <$> List.find (fun r => String.eqb (id r.2) workflow_id) (workflows db).

(** [dict(row)]: the columns of [SELECT *] under their names. *)
Definition row_dict (r : Row) : list (string * Value.t) :=
  [("id", Value.Str (id r));
   ("name", Value.Str (name r));
   ("description", Value.of_option (description r));
   ("category", Value.Str (category r));
   ("subcategory", Value.of_option (subcategory r));
   ("difficulty", Value.Str (difficulty r));
   ("author", Value.of_option (author r));
   ("source_repo", Value.Str (source_repo r));
   ("source_url", Value.of_option (source_url r));
   ("json_path", Value.Str (json_path r));
   ("tags", Value.Str (tags r));
   ("department", Value.of_option (department r));
   ("use_cases", Value.Str (use_cases r));
   ("node_count", Value.Int (node_count r));
   ("integrations", Value.Str (integrations r));
   ("node_types", Value.Str (node_types r));
   ("has_webhook", Value.Int (has_webhook r));
   ("has_schedule", Value.Int (has_schedule r));
   ("estimated_runtime", Value.of_option (estimated_runtime r));
   ("credentials", Value.Str (credentials r));
   ("services", Value.Str (services r));
   ("external_apis", Value.Str (external_apis r));
   ("min_n8n_version", Value.Str (min_n8n_version r));
   ("local_ai", Value.Int (local_ai r));
   ("requires_external_api", Value.Int (requires_external_api r));
   ("works_offline", Value.Int (works_offline r));
   ("pozi_compatible", Value.Int (pozi_compatible r));
   ("compatibility_status", Value.Str (compatibility_status r));
   ("compatibility_score", Value.of_real (compatibility_score r));
   ("popularity_score", Value.Int (popularity_score r));
   ("import_count", Value.Int (import_count r));
   ("success_rate", Value.of_real (success_rate r));
   ("avg_setup_time", Value.of_option (avg_setup_time r));
   ("created_at", Value.Str (created_at r));
   ("updated_at", Value.Str (updated_at r));
   ("last_synced", Value.of_option (last_synced r))].

(** The caller's view of [get_workflow]: a dict or [None]. *)
Definition get_workflow_dict (db : Db) (workflow_id : string)
    : option (list (string * Value.t)) :=
  row_dict <$> get_workflow db workflow_id.

(** [get_workflow_count] *)
Definition get_workflow_count (db : Db) : nat := length (workflows db).

(** [get_categories]: one entry per category that occurs, in ascending
    order of the category, with the number of rows that have it. *)
Definition get_categories (db : Db) : list (string * nat) :=
  let rows := snd <$> workflows db in
  (λ c, (c, length (filter (λ r, category r = c) rows)))
    <$> Py.sorted (list_to_set (category <$> rows)).

(** *** [search_workflows] *)

(** Python truth of an optional string argument. *)
Definition given (o : option string) : option string :=
  match o with
  | Some EmptyString => None
  | _ => o
  end.

(** [f'%"{tag}"%'] *)
Definition tag_pattern (tag : string) : string :=
  "%" +:+ String Json.quote (tag +:+ String Json.quote "%").

(** [ORDER BY popularity_score DESC, name ASC] *)
Definition ranks_before (r1 r2 : Row) : bool :=
  (popularity_score r2 <? popularity_score r1)%Z ||
  (popularity_score r1 =? popularity_score r2)%Z &&
  String.leb (name r1) (name r2).

Section search.

(** The full-text index is kept by SQLite's FTS5 module; what a
    query string matches is left to it. *)
Variable fts_match : string -> Row -> bool.

(** The [conditions] list with its parameters bound. *)
Definition conditions
    (query category difficulty : option string) (local_ai_only : bool)
    (tags : list string) : list (Row -> bool) :=
  match given query with
  | Some q => [fts_match q]
  | None => []
  end ++
  match given category with
  | Some c => [fun r => String.eqb (Database.category r) c]
  | None => []
  end ++
  match given difficulty with
  | Some d => [fun r => String.eqb (Database.difficulty r) d]
  | None => []
  end ++
  (if local_ai_only then [fun r => (local_ai r =? 1)%Z] else []) ++
  ((fun tag r => Sql.like (tag_pattern tag) (Database.tags r)) <$> tags).

(** [limit] and [offset] stand for integers the statement can bind,
    that is for 64-bit integers; the API layer passes a page size
    between 1 and 100 and the offset [(page - 1) * page_size]. *)
Definition search_workflows
    (db : Db) (query category difficulty : option string)
    (local_ai_only : bool) (tags : list string) (limit offset : Z)
    : list Row :=
  let where_clause r :=
    forallb (fun condition => condition r)
            (conditions query category difficulty local_ai_only tags) in
  let selected := List.filter where_clause (snd <$> workflows db) in
  Sql.limit_offset limit offset (merge_sort ranks_before selected).

End search.

(** *** [update_workflow_stats] *)

(** The [SET] clause on one row: the columns whose argument is given,
    and [updated_at]. *)
Definition set_stats
    (import_count : option Z) (success_rate : option float)
    (updated_at : string) (r : Row) : Row :=
  {| id := id r; name := name r; description := description r;
     category := category r; subcategory := subcategory r;
     difficulty := difficulty r; author := author r;
     source_repo := source_repo r; source_url := source_url r;
     json_path := json_path r; tags := tags r; department := department r;
     use_cases := use_cases r; node_count := node_count r;
     integrations := integrations r; node_types := node_types r;
     has_webhook := has_webhook r; has_schedule := has_schedule r;
     estimated_runtime := estimated_runtime r;
     credentials := credentials r; services := services r;
     external_apis := external_apis r;
     min_n8n_version := min_n8n_version r; local_ai := local_ai r;
     requires_external_api := requires_external_api r;
     works_offline := works_offline r;
     pozi_compatible := pozi_compatible r;
     compatibility_status := compatibility_status r;
     compatibility_score := compatibility_score r;
     popularity_score := popularity_score r;
     import_count := default (Database.import_count r) import_count;
     success_rate :=
       match success_rate with
       | Some rate => Sql.real rate
       | None => Database.success_rate r
       end;
     avg_setup_time := avg_setup_time r;
     created_at := created_at r;
     updated_at := updated_at;
     last_synced := last_synced r |}.

Inductive Exception :=
| OverflowError.

(** How a call ends: it returns (the function has no [return]
    statement, so with [None]), or an exception leaves it. *)
Inductive Outcome :=
| Returned
| Raised (e : Exception).

(** What is left of a call: how it ended, the database and the
    world. *)
Record Updated := {
  outcome : Outcome;
  store : Db;
  world : Sys.Env;
}.

(** Are the parameters of the [UPDATE] statement bindable?  Only
    [import_count] is an [int]. *)
Definition bindable (import_count : option Z) : bool :=
  match import_count with
  | Some n => Sql.fits_int64 n
  | None => true
  end.

(** The function has no [try]: with no argument given nothing runs;
    otherwise the clock is read while the parameter list is built, and
    [execute] either raises on a parameter it cannot bind, before any
    row is touched, or updates the rows whose id matches. *)
Definition update_workflow_stats
    (db : Db) (workflow_id : string)
    (import_count : option Z) (success_rate : option float)
    (env : Sys.Env) : Updated :=
  match import_count, success_rate with
  | None, None => {| outcome := Returned; store := db; world := env |}
  | _, _ =>
      let '(now, env) := Sys.utcnow env in
      if negb (bindable import_count) then
        {| outcome := Raised OverflowError; store := db; world := env |}
      else
        {| outcome := Returned;
           store :=
             {| workflows :=
                  (fun r : Z * Row =>
                     if String.eqb (id r.2) workflow_id
                     then (r.1, set_stats import_count success_rate
                                          (Sys.isoformat now) r.2)
                     else r) <$> workflows db |};
           world := env |}
  end.

(** *** Histories of the store *)

(** The two writing operations, and a store after a sequence of them. *)
Inductive Operation :=
| Insert (workflow : Parser.Workflow)
| UpdateStats (workflow_id : string)
              (import_count : option Z) (success_rate : option float).

Definition apply_operation (state : Db * Sys.Env) (op : Operation)
    : Db * Sys.Env :=
  match op with
  | Insert workflow => ((insert_workflow state.1 workflow).1, state.2)
  | UpdateStats workflow_id import_count success_rate =>
      let updated :=
        update_workflow_stats state.1 workflow_id import_count success_rate
                              state.2 in
      (store updated, world updated)
  end.

Definition after (ops : list Operation) (env : Sys.Env) : Db * Sys.Env :=
  foldl apply_operation (init_db None, env) ops.

(** No two rows have the same id, and no two the same rowid. *)
Definition unique_ids (db : Db) : Prop :=
  NoDup ((λ r, id r.2) <$> workflows db) ∧ NoDup (fst <$> workflows db).

End Database.

(** ** The ingestion summary, [app/services/ingestion.py] *)

Module Ingestion.

(** [counts[key] = counts.get(key, 0) + 1] *)
Definition count_up (key : string) (counts : gmap string nat)
    : gmap string nat :=
  <[key := default 0 (counts !! key) + 1]> counts.

(** The five local variables of the loop of [generate_summary]. *)
Record Tally := {
  tally_categories : gmap string nat;
  tally_difficulties : gmap string nat;
  tally_statuses : gmap string nat;
  tally_local_ai : nat;
  tally_nodes : nat;
}.

Definition tally_init : Tally :=
  {| tally_categories := ∅;
     tally_difficulties :=
       <["beginner" := 0]> (<["intermediate" := 0]> (<["advanced" := 0]> ∅));
     tally_statuses := ∅;
     tally_local_ai := 0;
     tally_nodes := 0 |}.

Definition tally_step (t : Tally) (wf : Parser.Workflow) : Tally :=
  {| tally_categories := count_up (Parser.category wf) (tally_categories t);
     tally_difficulties :=
       count_up (Parser.difficulty_value (Parser.difficulty wf))
                (tally_difficulties t);
     tally_statuses :=
       count_up (Parser.status_value (Parser.status (Parser.compatibility wf)))
                (tally_statuses t);
     tally_local_ai :=
       if Parser.local_ai (Parser.compatibility wf)
       then tally_local_ai t + 1 else tally_local_ai t;
     tally_nodes := tally_nodes t + Parser.node_count (Parser.metadata wf) |}.

Record Summary := {
  total_workflows : nat;
  categories : gmap string nat;
  difficulties : gmap string nat;
  compatibility_statuses : gmap string nat;
  local_ai_workflows : nat;
  avg_nodes_per_workflow : float;
}.

(** [generate_summary]; [None] is the empty dict returned for an empty
    list.  The quotient of the two integers is the float quotient of
    their conversions, which is what Python's true division gives for
    integers below 2^53. *)
Definition generate_summary (workflows : list Parser.Workflow)
    : option Summary :=
  match workflows with
  | [] => None
  | _ =>
      let t := foldl tally_step tally_init workflows in
      Some {| total_workflows := length workflows;
              categories := tally_categories t;
              difficulties := tally_difficulties t;
              compatibility_statuses := tally_statuses t;
              local_ai_workflows := tally_local_ai t;
              avg_nodes_per_workflow :=
                Py.round
                  (PrimFloat.div
                     (Py.float_of_nonneg (Z.of_nat (tally_nodes t)))
                     (Py.float_of_nonneg (Z.of_nat (length workflows))))
                  1 |}
  end.

End Ingestion.

(** ** The paging of the endpoints, [app/main.py] *)

Module Api.

(** [offset = (page - 1) * page_size] *)
Definition page_offset (page page_size : Z) : Z := ((page - 1) * page_size)%Z.

(** The rows one page of [list_workflows] or of the search endpoint
    asks the store for. *)
Definition page_rows
    (fts_match : string → Database.Row → bool) (db : Database.Db)
    (query category difficulty : option string) (local_ai_only : bool)
    (tags : list string) (page page_size : Z) : list Database.Row :=
  Database.search_workflows fts_match db query category difficulty
                            local_ai_only tags page_size
                            (page_offset page page_size).

(** [tags.split(',') if tags else []] *)
Definition tag_list (tags : option string) : list string :=
  match Database.given tags with
  | Some t => Py.split ","%char t
  | None => []
  end.

End Api.

(** * Sample workflows and the premises of the claims *)

(** The smallest workflow with a node type that is not lower-case: one
    sticky note. *)
Definition sticky_note_node : Parser.Node :=
  {| Parser.type := Some "n8n-nodes-base.stickyNote";
     Parser.content := None;
     Parser.credential_keys := [] |}.

(** The number of distinct node types of a workflow. *)
Definition distinct_type_count (nodes : list Parser.Node) : nat :=
  length (remove_dups (Parser.get_type <$> nodes)).

(** A workflow with one node per given type. *)
Definition nodes_of_types (types : list string) : list Parser.Node :=
  (λ t, {| Parser.type := Some t; Parser.content := None;
           Parser.credential_keys := [] |}) <$> types.

Definition three_types : list string := ["a"; "b"; "c"].
Definition ten_types : list string :=
  ["a"; "b"; "c"; "d"; "e"; "f"; "g"; "h"; "i"; "j"].
Definition twenty_types : list string :=
  ten_types ++ ["k"; "l"; "m"; "n"; "o"; "p"; "q"; "r"; "s"; "t"].

(** The premise of C1: the nodes yield exactly one credential type, it
    names no local service, and no node is a local-AI node. *)
Definition one_external_credential (nodes : list Parser.Node) : Prop :=
  ∃ c, Parser.credential_types (Parser._analyze_nodes nodes) = [c] ∧
       Parser.is_local c = false ∧
       Parser.has_local_ai (Parser._analyze_nodes nodes) = false.

(** A Slack node with its API credential. *)
Definition slack_node : Parser.Node :=
  {| Parser.type := Some "n8n-nodes-base.slack";
     Parser.content := None;
     Parser.credential_keys := ["slackApi"] |}.

(** A small workflow file: a Gmail node and a name. *)
Definition gmail_node : Parser.Node :=
  {| Parser.type := Some "n8n-nodes-base.gmail";
     Parser.content := None;
     Parser.credential_keys := ["gmailOAuth2"] |}.

Definition digest_document : Parser.WorkflowData :=
  {| Parser.doc_name := Some "Email digest";
     Parser.doc_description := None;
     Parser.doc_nodes := [gmail_node];
     Parser.doc_tags := Some [] |}.

Definition digest_path : Parser.Path :=
  {| Parser.path_str := "data/workflows/n8n-workflows/digest.json";
     Parser.stem := "digest" |}.

(** A second file of the directory holds the JSON text [[]]. *)
Definition array_path : Parser.Path :=
  {| Parser.path_str := "data/workflows/n8n-workflows/array.json";
     Parser.stem := "array" |}.

Definition digest_files : Parser.Files :=
  λ path, if String.eqb path (Parser.path_str digest_path)
          then Parser.Document digest_document
          else if String.eqb path (Parser.path_str array_path)
          then Parser.Malformed
          else Parser.Unreadable.

(** A clock that has moved on by 17 microseconds after its first
    reading. *)
Definition first_reading : Sys.datetime :=
  {| Sys.year := 2024; Sys.month := 5; Sys.day := 17;
     Sys.hour := 9; Sys.minute := 30; Sys.second := 12;
     Sys.microsecond := 480215 |}.

Definition later_reading : Sys.datetime :=
  {| Sys.year := 2024; Sys.month := 5; Sys.day := 17;
     Sys.hour := 9; Sys.minute := 30; Sys.second := 12;
     Sys.microsecond := 480232 |}.

Definition ticking_env : Sys.Env :=
  {| Sys.clock := λ n, match n with O => first_reading | _ => later_reading end;
     Sys.clock_reads := 0;
     Sys.uuids := λ _, "6f1c2a9e-3b7d-4c58-9a41-0d2e5f8b7c13";
     Sys.uuids_drawn := 0 |}.

Definition digest_workflow : option Parser.Workflow :=
  (Parser.parse_workflow digest_files digest_path "Zie619/n8n-workflows"
                         ticking_env).1.

(** The record the builder makes of [digest_document], written out. *)
Definition digest_record : Parser.Workflow :=
  {| Parser.id := "6f1c2a9e-3b7d-4c58-9a41-0d2e5f8b7c13";
     Parser.name := "Email digest";
     Parser.description := None;
     Parser.category := "AI & Machine Learning";
     Parser.subcategory := Some "General AI";
     Parser.difficulty := Parser.beginner;
     Parser.author := Some "Zie619";
     Parser.source_repo := "Zie619/n8n-workflows";
     Parser.source_url := None;
     Parser.json_path := "data/workflows/n8n-workflows/digest.json";
     Parser.tags := ["ai"; "email"; "gmail"];
     Parser.department := Some "Engineering";
     Parser.use_cases := [];
     Parser.metadata :=
       {| Parser.node_count := 1;
          Parser.meta_integrations := ["gmail"];
          Parser.meta_node_types := ["n8n-nodes-base.gmail"];
          Parser.meta_has_webhook := false;
          Parser.meta_has_schedule := false;
          Parser.estimated_runtime := Some "< 1 minute" |};
     Parser.requirements :=
       {| Parser.credentials :=
            [ {| Parser.cred_type := "gmailoauth2";
                 Parser.cred_required := true;
                 Parser.cred_local := false;
                 Parser.cred_description := None |} ];
          Parser.services := [];
          Parser.external_apis := ["gmailoauth2"];
          Parser.min_n8n_version := "1.0.0" |};
     Parser.compatibility :=
       {| Parser.local_ai := false;
          Parser.requires_external_api := true;
          Parser.works_offline := false;
          Parser.pozi_compatible := false;
          Parser.status := Parser.requires_external;
          Parser.compatibility_score := 0.2%float |};
     Parser.stats :=
       {| Parser.popularity_score := 0;
          Parser.import_count := 0;
          Parser.success_rate := 0.0%float;
          Parser.avg_setup_time := None |};
     Parser.created_at := "2024-05-17T09:30:12.480215";
     Parser.updated_at := "2024-05-17T09:30:12.480232";
     Parser.last_synced := None |}.

(** The store after [init_db] and one insert. *)
Definition digest_db : Database.Db :=
  (Database.insert_workflow (Database.init_db None) digest_record).1.

(** Every field of [expected] is present in [got] with an equal
    value. *)
Definition same_fields (expected got : list (string * Value.t)) : bool :=
  forallb (λ kv, match Value.get kv.1 got with
                 | Some v => Value.eq kv.2 v
                 | None => false
                 end) expected.

(** The top-level fields of a record that hold a string or [None]. *)
Definition scalar_fields : list string :=
  ["id"; "name"; "description"; "category"; "subcategory"; "difficulty";
   "author"; "source_repo"; "source_url"; "json_path"; "department";
   "created_at"; "updated_at"; "last_synced"].

(** A local-AI agent node that talks to a hosted model. *)
Definition agent_node : Parser.Node :=
  {| Parser.type := Some "@n8n/n8n-nodes-langchain.agent";
     Parser.content := None;
     Parser.credential_keys := ["openAiApi"] |}.

(** A node without credentials. *)
Definition set_node : Parser.Node :=
  {| Parser.type := Some "n8n-nodes-base.set";
     Parser.content := None;
     Parser.credential_keys := [] |}.

(** The scores a record can carry. *)
Definition possible_scores : list float :=
  [1.0; 0.8; 0.7; 0.5; 0.4; 0.2]%float.

(** The pairs of category and subcategory the classifier can give, each
    with the department it leads to. *)
Definition category_table : list (string * string * option string) :=
  [("AI & Machine Learning", "RAG & Document Processing", Some "Engineering");
   ("AI & Machine Learning", "AI Agents", Some "Engineering");
   ("AI & Machine Learning", "General AI", Some "Engineering");
   ("Communication & Messaging", "Email", Some "Operations");
   ("Communication & Messaging", "Slack", Some "Operations");
   ("Communication & Messaging", "Telegram", Some "Operations");
   ("Communication & Messaging", "General", Some "Operations");
   ("Data & Analytics", "Data Processing", Some "Analytics");
   ("Business & Productivity", "Automation", Some "Executive");
   ("Utilities & Tools", "General", None)].

(** The difficulty levels, each with the runtime estimate of the same
    thresholds. *)
Definition runtime_table : list (Parser.DifficultyLevel * string) :=
  [(Parser.beginner, "< 1 minute");
   (Parser.intermediate, "1-5 minutes");
   (Parser.advanced, "5+ minutes")].

(** A document that carries tags of its own, one of them twice. *)
Definition tagged_document : Parser.WorkflowData :=
  {| Parser.doc_name := Some "Chat with your PDF documents";
     Parser.doc_description := Some (Some "Answer a question from a file");
     Parser.doc_nodes := [agent_node; gmail_node];
     Parser.doc_tags :=
       Some [Parser.TagDict (Some "Support"); Parser.TagStr "Support";
             Parser.TagDict None] |}.

(** A document without description whose first sticky note is too short
    to serve as one and whose second is long enough. *)
Definition short_note : Parser.Node :=
  {| Parser.type := Some "n8n-nodes-base.stickyNote";
     Parser.content := Some "Setup";
     Parser.credential_keys := [] |}.

Definition long_note : Parser.Node :=
  {| Parser.type := Some "n8n-nodes-base.stickyNote";
     Parser.content := Some "Sends the weekly report to the sales team";
     Parser.credential_keys := [] |}.

Definition noted_document : Parser.WorkflowData :=
  {| Parser.doc_name := None;
     Parser.doc_description := None;
     Parser.doc_nodes := [short_note; set_node; long_note];
     Parser.doc_tags := Some [] |}.

(** A document without nodes. *)
Definition empty_document : Parser.WorkflowData :=
  {| Parser.doc_name := Some "Blank";
     Parser.doc_description := None;
     Parser.doc_nodes := [];
     Parser.doc_tags := Some [] |}.


(** The columns a statistics update may write. *)
Definition stats_columns : list string :=
  ["import_count"; "success_rate"; "updated_at"].

(** A second record, for a store with two rows. *)
Definition report_record : Parser.Workflow :=
  {| Parser.id := "0b9d7c1e-52aa-4f0b-8d3c-7e1f9a6b2c40";
     Parser.name := "Weekly report";
     Parser.description := Some "Collects sales data";
     Parser.category := "Data & Analytics";
     Parser.subcategory := Some "Data Processing";
     Parser.difficulty := Parser.intermediate;
     Parser.author := Some "enescingoz";
     Parser.source_repo := "enescingoz/awesome-n8n-templates";
     Parser.source_url := None;
     Parser.json_path := "data/workflows/awesome-n8n-templates/report.json";
     Parser.tags := ["data"; "postgres"];
     Parser.department := Some "Analytics";
     Parser.use_cases := [];
     Parser.metadata :=
       {| Parser.node_count := 7;
          Parser.meta_integrations := ["postgres"];
          Parser.meta_node_types := ["n8n-nodes-base.postgres"];
          Parser.meta_has_webhook := false;
          Parser.meta_has_schedule := true;
          Parser.estimated_runtime := Some "1-5 minutes" |};
     Parser.requirements :=
       {| Parser.credentials :=
            [ {| Parser.cred_type := "postgres";
                 Parser.cred_required := true;
                 Parser.cred_local := true;
                 Parser.cred_description := None |} ];
          Parser.services := ["postgres"];
          Parser.external_apis := [];
          Parser.min_n8n_version := "1.0.0" |};
     Parser.compatibility :=
       {| Parser.local_ai := false;
          Parser.requires_external_api := false;
          Parser.works_offline := true;
          Parser.pozi_compatible := true;
          Parser.status := Parser.fully_compatible;
          Parser.compatibility_score := 1.0%float |};
     Parser.stats :=
       {| Parser.popularity_score := 4;
          Parser.import_count := 2;
          Parser.success_rate := 1.0%float;
          Parser.avg_setup_time := None |};
     Parser.created_at := "2024-05-18T10:00:00";
     Parser.updated_at := "2024-05-18T10:00:00";
     Parser.last_synced := None |}.

Definition two_row_db : Database.Db :=
  (Database.insert_workflow digest_db report_record).1.

(** A record with another success rate, and one with another
    popularity score. *)
Definition with_success_rate (rate : float) (w : Parser.Workflow)
    : Parser.Workflow :=
  {| Parser.id := Parser.id w; Parser.name := Parser.name w;
     Parser.description := Parser.description w;
     Parser.category := Parser.category w;
     Parser.subcategory := Parser.subcategory w;
     Parser.difficulty := Parser.difficulty w;
     Parser.author := Parser.author w;
     Parser.source_repo := Parser.source_repo w;
     Parser.source_url := Parser.source_url w;
     Parser.json_path := Parser.json_path w;
     Parser.tags := Parser.tags w;
     Parser.department := Parser.department w;
     Parser.use_cases := Parser.use_cases w;
     Parser.metadata := Parser.metadata w;
     Parser.requirements := Parser.requirements w;
     Parser.compatibility := Parser.compatibility w;
     Parser.stats :=
       {| Parser.popularity_score := Parser.popularity_score (Parser.stats w);
          Parser.import_count := Parser.import_count (Parser.stats w);
          Parser.success_rate := rate;
          Parser.avg_setup_time := Parser.avg_setup_time (Parser.stats w) |};
     Parser.created_at := Parser.created_at w;
     Parser.updated_at := Parser.updated_at w;
     Parser.last_synced := Parser.last_synced w |}.

Definition with_popularity_score (score : Z) (w : Parser.Workflow)
    : Parser.Workflow :=
  {| Parser.id := Parser.id w; Parser.name := Parser.name w;
     Parser.description := Parser.description w;
     Parser.category := Parser.category w;
     Parser.subcategory := Parser.subcategory w;
     Parser.difficulty := Parser.difficulty w;
     Parser.author := Parser.author w;
     Parser.source_repo := Parser.source_repo w;
     Parser.source_url := Parser.source_url w;
     Parser.json_path := Parser.json_path w;
     Parser.tags := Parser.tags w;
     Parser.department := Parser.department w;
     Parser.use_cases := Parser.use_cases w;
     Parser.metadata := Parser.metadata w;
     Parser.requirements := Parser.requirements w;
     Parser.compatibility := Parser.compatibility w;
     Parser.stats :=
       {| Parser.popularity_score := score;
          Parser.import_count := Parser.import_count (Parser.stats w);
          Parser.success_rate := Parser.success_rate (Parser.stats w);
          Parser.avg_setup_time := Parser.avg_setup_time (Parser.stats w) |};
     Parser.created_at := Parser.created_at w;
     Parser.updated_at := Parser.updated_at w;
     Parser.last_synced := Parser.last_synced w |}.

(** * Properties *)

(** ** The string primitives *)

Section py_facts.

Lemma lower_char_idemp c : Py.lower_char (Py.lower_char c) = Py.lower_char c.
Proof. by destruct c as [[] [] [] [] [] [] [] []]. Qed.

Lemma lower_is_lower s : Py.is_lower (Py.lower s).
Proof.
  unfold Py.is_lower.
  induction s as [|c s IH]; simpl; [done|].
  by rewrite lower_char_idemp, IH.
Qed.

Lemma sorted_Permutation (X : gset string) : Py.sorted X ≡ₚ elements X.
Proof. apply merge_sort_Permutation. Qed.

Lemma elem_of_sorted (X : gset string) x : x ∈ Py.sorted X ↔ x ∈ X.
Proof. by rewrite sorted_Permutation, elem_of_elements. Qed.

Lemma length_sorted (X : gset string) : length (Py.sorted X) = size X.
Proof. by rewrite sorted_Permutation. Qed.

Lemma NoDup_sorted (X : gset string) : NoDup (Py.sorted X).
Proof. rewrite sorted_Permutation. apply NoDup_elements. Qed.

Lemma StronglySorted_sorted (X : gset string) :
  StronglySorted String.le (Py.sorted X).
Proof. apply (StronglySorted_merge_sort _). Qed.

Lemma Forall_sorted (P : string → Prop) (X : gset string) :
  set_Forall P X → Forall P (Py.sorted X).
Proof.
  intros HX. apply Forall_forall. intros x Hx.
  by apply HX, elem_of_sorted.
Qed.

End py_facts.

(** ** The clock *)

Section clock_facts.

Lemma length_append s t :
  String.length (s +:+ t) = (String.length s + String.length t)%nat.
Proof. induction s as [|c s IH]; simpl; [done|by rewrite IH]. Qed.

Lemma length_zero_padded width n :
  String.length (Sys.zero_padded width n) = width.
Proof.
  revert n. induction width as [|w IH]; intros n; [done|].
  cbn [Sys.zero_padded]. rewrite length_append, IH. simpl. lia.
Qed.

Lemma append_inj_length s1 s2 t1 t2 :
  String.length s1 = String.length s2 →
  s1 +:+ t1 = s2 +:+ t2 → s1 = s2 ∧ t1 = t2.
Proof.
  revert s2. induction s1 as [|c s1 IH]; intros [|d s2]; simpl; try done.
  intros [= Hlen] [= -> Happ]. destruct (IH _ Hlen Happ) as [-> ->]. done.
Qed.

Lemma digit_inj n m : Sys.digit n = Sys.digit m → (n mod 10 = m mod 10)%N.
Proof.
  unfold Sys.digit, Py.chr. intros H%(f_equal Ascii.N_of_ascii).
  pose proof (N.mod_upper_bound n 10). pose proof (N.mod_upper_bound m 10).
  rewrite !Ascii.N_ascii_embedding in H; lia.
Qed.

Lemma zero_padded_inj width n m :
  (n < 10 ^ N.of_nat width)%N → (m < 10 ^ N.of_nat width)%N →
  Sys.zero_padded width n = Sys.zero_padded width m → n = m.
Proof.
  revert n m. induction width as [|w IH]; intros n m Hn Hm.
  - simpl in *. lia.
  - cbn [Sys.zero_padded]. intros H.
    apply append_inj_length in H as [Hhigh Hlow];
      [|by rewrite !length_zero_padded].
    injection Hlow as Hlow%digit_inj.
    rewrite Nat2N.inj_succ, N.pow_succ_r' in Hn, Hm.
    apply IH in Hhigh; [|apply N.Div0.div_lt_upper_bound; lia..].
    rewrite (N.div_mod n 10), (N.div_mod m 10) by lia. lia.
Qed.

(** Within the field ranges of a [datetime], the ISO text determines
    the reading. *)
Lemma isoformat_inj d1 d2 :
  Sys.valid d1 = true → Sys.valid d2 = true →
  Sys.isoformat d1 = Sys.isoformat d2 → d1 = d2.
Proof.
  destruct d1 as [y1 mo1 dd1 h1 mi1 s1 us1], d2 as [y2 mo2 dd2 h2 mi2 s2 us2].
  unfold Sys.valid, Sys.isoformat.
  cbn [Sys.year Sys.month Sys.day Sys.hour Sys.minute Sys.second
       Sys.microsecond].
  rewrite !andb_true_iff, !N.leb_le, !N.ltb_lt.
  intros Hv1 Hv2 H.
  apply append_inj_length in H as [Hy H]; [|by rewrite !length_zero_padded].
  apply append_inj_length in H as [_ H]; [|done].
  apply append_inj_length in H as [Hmo H]; [|by rewrite !length_zero_padded].
  apply append_inj_length in H as [_ H]; [|done].
  apply append_inj_length in H as [Hdd H]; [|by rewrite !length_zero_padded].
  apply append_inj_length in H as [_ H]; [|done].
  apply append_inj_length in H as [Hh H]; [|by rewrite !length_zero_padded].
  apply append_inj_length in H as [_ H]; [|done].
  apply append_inj_length in H as [Hmi H]; [|by rewrite !length_zero_padded].
  apply append_inj_length in H as [_ H]; [|done].
  apply append_inj_length in H as [Hs H]; [|by rewrite !length_zero_padded].
  apply (zero_padded_inj 4) in Hy;
    [|change (10 ^ N.of_nat 4)%N with 10000%N; lia..].
  apply (zero_padded_inj 2) in Hmo;
    [|change (10 ^ N.of_nat 2)%N with 100%N; lia..].
  apply (zero_padded_inj 2) in Hdd;
    [|change (10 ^ N.of_nat 2)%N with 100%N; lia..].
  apply (zero_padded_inj 2) in Hh;
    [|change (10 ^ N.of_nat 2)%N with 100%N; lia..].
  apply (zero_padded_inj 2) in Hmi;
    [|change (10 ^ N.of_nat 2)%N with 100%N; lia..].
  apply (zero_padded_inj 2) in Hs;
    [|change (10 ^ N.of_nat 2)%N with 100%N; lia..].
  assert (us1 = us2) as Hus.
  { destruct (us1 =? 0)%N eqn:H1, (us2 =? 0)%N eqn:H2.
    - apply N.eqb_eq in H1, H2. by subst.
    - discriminate H.
    - discriminate H.
    - apply append_inj_length in H as [_ H]; [|done].
      apply (zero_padded_inj 6) in H;
        [done|change (10 ^ N.of_nat 6)%N with 1000000%N; lia..]. }
  by subst.
Qed.

End clock_facts.

(** ** The node analyzer *)

Section analyzer_facts.

Implicit Types (a : Parser.Acc) (nodes : list Parser.Node).

(** What the loop keeps true: preserved by every iteration, hence by
    the whole loop. *)
Lemma analyze_loop_ind (P : Parser.Acc → Prop) a nodes :
  P a →
  (∀ a' node, P a' → P (Parser.analyze_node a' node)) →
  P (foldl Parser.analyze_node a nodes).
Proof.
  intros Ha Hstep. revert a Ha.
  induction nodes as [|node nodes IH]; intros a Ha; simpl; auto.
Qed.

Lemma integration_of_lower node_type i :
  Parser.integration_of node_type = Some i → Py.is_lower i.
Proof.
  unfold Parser.integration_of. intros H.
  repeat case_match; simplify_eq; apply lower_is_lower.
Qed.

Lemma credential_keys_lower (s : gset string) keys :
  set_Forall Py.is_lower s →
  set_Forall Py.is_lower
    (foldl (λ s cred_type, {[ Py.lower cred_type ]} ∪ s) s keys).
Proof.
  revert s. induction keys as [|k keys IH]; intros s Hs; simpl; [done|].
  apply IH. apply set_Forall_union; [|done].
  apply set_Forall_singleton, lower_is_lower.
Qed.

Lemma analyze_node_lower a node :
  set_Forall Py.is_lower (Parser.acc_integrations a) ∧
  set_Forall Py.is_lower (Parser.acc_credential_types a) →
  set_Forall Py.is_lower
    (Parser.acc_integrations (Parser.analyze_node a node)) ∧
  set_Forall Py.is_lower
    (Parser.acc_credential_types (Parser.analyze_node a node)).
Proof.
  intros [Hi Hc]. split; simpl.
  - destruct (Parser.integration_of _) as [i|] eqn:Hint; [|done].
    apply set_Forall_union; [|done].
    apply set_Forall_singleton. by eapply integration_of_lower.
  - by apply credential_keys_lower.
Qed.

Lemma acc_node_types_loop a nodes :
  Parser.acc_node_types (foldl Parser.analyze_node a nodes) =
  list_to_set (Parser.get_type <$> nodes) ∪ Parser.acc_node_types a.
Proof.
  revert a. induction nodes as [|node nodes IH]; intros a; simpl.
  - set_solver.
  - rewrite IH. simpl. set_solver.
Qed.

Lemma node_types_spec nodes :
  Parser.node_types (Parser._analyze_nodes nodes) ≡ₚ
  remove_dups (Parser.get_type <$> nodes).
Proof.
  apply NoDup_Permutation.
  - apply NoDup_sorted.
  - apply NoDup_remove_dups.
  - intros x. simpl.
    rewrite elem_of_sorted, acc_node_types_loop, elem_of_remove_dups.
    set_solver.
Qed.

End analyzer_facts.

Section analyzer_claims.

Implicit Types (nodes : list Parser.Node).

(** C3, as the specification words it, fails: [node_types] keeps the
    type strings as they are, capitals included.  One sticky-note node
    gives [node_types = ["n8n-nodes-base.stickyNote"]]. *)
Lemma node_types_not_all_lower :
  ¬ (∀ nodes,
       Forall Py.is_lower (Parser.integrations (Parser._analyze_nodes nodes)) ∧
       Forall Py.is_lower (Parser.node_types (Parser._analyze_nodes nodes)) ∧
       Forall Py.is_lower
         (Parser.credential_types (Parser._analyze_nodes nodes))).
Proof.
  intros H. pose proof (H [sticky_note_node]) as (_ & Hty & _). clear H.
  assert (Parser.node_types (Parser._analyze_nodes [sticky_note_node]) =
          ["n8n-nodes-base.stickyNote"]) as Heq by (vm_compute; reflexivity).
  rewrite Heq in Hty. inversion Hty as [|x l Hlow].
  vm_compute in Hlow. discriminate.
Qed.

(** C3, amended: for every list of nodes, every element of
    [integrations] and of [credential_types] is lower-cased, and
    [node_types] holds exactly the type strings of the nodes, verbatim
    (a missing type counting as the empty string). *)
Theorem analyze_nodes_lower_case nodes :
  Forall Py.is_lower (Parser.integrations (Parser._analyze_nodes nodes)) ∧
  Forall Py.is_lower (Parser.credential_types (Parser._analyze_nodes nodes)) ∧
  (∀ x, x ∈ Parser.node_types (Parser._analyze_nodes nodes) ↔
        ∃ node, node ∈ nodes ∧ Parser.get_type node = x).
Proof.
  assert (set_Forall Py.is_lower
            (Parser.acc_integrations
               (foldl Parser.analyze_node Parser.acc_init nodes)) ∧
          set_Forall Py.is_lower
            (Parser.acc_credential_types
               (foldl Parser.analyze_node Parser.acc_init nodes)))
    as [Hi Hc].
  { apply (analyze_loop_ind
             (λ a, set_Forall Py.is_lower (Parser.acc_integrations a) ∧
                   set_Forall Py.is_lower (Parser.acc_credential_types a))).
    - split; apply set_Forall_empty.
    - intros a node. apply analyze_node_lower. }
  split_and!.
  - by apply Forall_sorted.
  - by apply Forall_sorted.
  - intros x. rewrite node_types_spec, elem_of_remove_dups, list_elem_of_fmap.
    naive_solver.
Qed.

(** C7: for every list of nodes, [integrations], [node_types] and
    [credential_types] of the analysis are sorted in ascending string
    order and hold no element twice. *)
Theorem analyze_nodes_sorted_nodup nodes :
  let analysis := Parser._analyze_nodes nodes in
  (StronglySorted String.le (Parser.integrations analysis) ∧
   NoDup (Parser.integrations analysis)) ∧
  (StronglySorted String.le (Parser.node_types analysis) ∧
   NoDup (Parser.node_types analysis)) ∧
  (StronglySorted String.le (Parser.credential_types analysis) ∧
   NoDup (Parser.credential_types analysis)).
Proof.
  simpl. split_and!;
    first [apply StronglySorted_sorted | apply NoDup_sorted].
Qed.

(** C6: the difficulty of a workflow depends on its number of distinct
    node types only: at most 5 is beginner, 6 to 15 is intermediate,
    more than 15 is advanced. *)
Theorem difficulty_by_distinct_types nodes :
  let difficulty :=
    Parser._determine_difficulty (Parser._analyze_nodes nodes) in
  let count := distinct_type_count nodes in
  (count ≤ 5 → difficulty = Parser.beginner) ∧
  (6 ≤ count ≤ 15 → difficulty = Parser.intermediate) ∧
  (15 < count → difficulty = Parser.advanced).
Proof.
  intros difficulty count.
  assert (length (Parser.node_types (Parser._analyze_nodes nodes)) = count)
    as Hlen by by rewrite node_types_spec.
  subst difficulty. unfold Parser._determine_difficulty. rewrite Hlen.
  split_and!; intros Hc;
    repeat (case_match; try done);
    rewrite ?Nat.leb_le, ?Nat.leb_gt in *; lia.
Qed.

(** C6 at 3, 10 and 20 distinct node types. *)
Lemma difficulty_by_distinct_types_witness :
  Parser._determine_difficulty
    (Parser._analyze_nodes (nodes_of_types three_types)) = Parser.beginner ∧
  Parser._determine_difficulty
    (Parser._analyze_nodes (nodes_of_types ten_types)) = Parser.intermediate ∧
  Parser._determine_difficulty
    (Parser._analyze_nodes (nodes_of_types twenty_types)) = Parser.advanced.
Proof.
  split_and!.
  - apply (difficulty_by_distinct_types (nodes_of_types three_types)).
    vm_compute. lia.
  - apply (difficulty_by_distinct_types (nodes_of_types ten_types)).
    vm_compute. lia.
  - apply (difficulty_by_distinct_types (nodes_of_types twenty_types)).
    vm_compute. lia.
Defined.

End analyzer_claims.

(** ** The requirements and the compatibility score *)

Section compatibility_facts.

Implicit Types (nodes : list Parser.Node).
Implicit Types (requirements : Parser.Requirements).
Implicit Types (node_analysis : Parser.NodeAnalysis).

Lemma sorted_empty : Py.sorted ∅ = [].
Proof. unfold Py.sorted. by rewrite elements_empty. Qed.

Lemma sorted_singleton c : Py.sorted {[ c ]} = [c].
Proof. unfold Py.sorted. by rewrite elements_singleton. Qed.

(** One credential type that names no local service: no service, and
    the credential type as the only external API. *)
Lemma requirements_one_external nodes node_analysis c :
  Parser.credential_types node_analysis = [c] →
  Parser.is_local c = false →
  Parser.services (Parser._extract_requirements nodes node_analysis) = [] ∧
  Parser.external_apis (Parser._extract_requirements nodes node_analysis)
    = [c].
Proof.
  intros Hc Hloc. unfold Parser._extract_requirements. rewrite Hc.
  cbn [foldl]. unfold Parser.requirement_step. rewrite Hloc.
  cbn [Parser.services Parser.external_apis Parser.req_services
       Parser.req_external_apis].
  rewrite (right_id_L ∅ (∪)). by rewrite sorted_empty, sorted_singleton.
Qed.

(** The eight values of [score]: no input takes it below
    0.19999999999999996. *)
Lemma penalised_score_lower_bound la ext n :
  (0.19999999999999996 <=? Parser.penalised_score la ext n)%float = true.
Proof. by destruct la, ext, n. Qed.

Lemma penalised_score_offline la n :
  (0.8 <=? Parser.penalised_score la false n)%float = true.
Proof. by destruct la, n. Qed.

End compatibility_facts.

Section compatibility_claims.

Implicit Types (nodes : list Parser.Node).

Lemma slack_one_external : one_external_credential [slack_node].
Proof. exists "slackapi". by vm_compute. Qed.

(** C1, as the specification words it, fails: with one external
    credential there is no local service either, so the third penalty
    applies as well and the score of the Slack workflow is 0.2, not
    0.4. *)
Lemma one_external_credential_not_0_4 :
  ¬ (∀ nodes, one_external_credential nodes →
       Parser.compatibility_score (Parser.compatibility_of nodes)
         = 0.4%float ∧
       Parser.status (Parser.compatibility_of nodes)
         = Parser.requires_external ∧
       Parser.pozi_compatible (Parser.compatibility_of nodes) = false).
Proof.
  intros H. pose proof (H [slack_node] slack_one_external) as [Hscore _].
  clear H.
  apply (f_equal (λ x, PrimFloat.eqb x 0.4)) in Hscore.
  vm_compute in Hscore. discriminate.
Qed.

(** C1, amended: for every workflow whose nodes yield exactly one
    credential type that names no local service, and no local-AI node,
    the scorer returns compatibility_score = 0.2 (all three penalties
    apply), status = requires_external and pozi_compatible = false. *)
Theorem one_external_credential_score nodes :
  one_external_credential nodes →
  Parser.compatibility_score (Parser.compatibility_of nodes) = 0.2%float ∧
  Parser.status (Parser.compatibility_of nodes) = Parser.requires_external ∧
  Parser.pozi_compatible (Parser.compatibility_of nodes) = false.
Proof.
  intros (c & Hc & Hloc & Hai).
  destruct (requirements_one_external nodes _ c Hc Hloc) as [Hsvc Hext].
  unfold Parser.compatibility_of, Parser._analyze_compatibility.
  rewrite Hsvc, Hext, Hai.
  cbn [Parser.compatibility_score Parser.status Parser.pozi_compatible].
  by vm_compute.
Qed.

Lemma one_external_credential_score_witness :
  Parser.compatibility_score (Parser.compatibility_of [slack_node])
    = 0.2%float ∧
  Parser.status (Parser.compatibility_of [slack_node])
    = Parser.requires_external ∧
  Parser.pozi_compatible (Parser.compatibility_of [slack_node]) = false.
Proof.
  apply (one_external_credential_score [slack_node]).
  exists "slackapi". by vm_compute.
Defined.

(** C2, as the specification words it, fails: there is no input on
    which the score falls below 0. *)
Lemma score_never_negative :
  ¬ (∃ requirements node_analysis,
       (Parser.raw_score requirements node_analysis <? 0)%float = true).
Proof.
  intros (requirements & node_analysis & H).
  unfold Parser.raw_score in H.
  destruct (Parser.has_local_ai _), (0 <? length _)%nat,
           (length (Parser.services _)); by vm_compute in H.
Qed.

(** C2, amended: stacking all three penalties (an external API is
    required, local AI is absent, no local service is present) gives
    the lowest score the formula yields, 0.19999999999999996, which is
    stored as 0.2; on every input the score is at least that, hence
    above 0. *)
Theorem score_lower_bound requirements node_analysis :
  (0.19999999999999996 <=? Parser.raw_score requirements node_analysis)%float
    = true ∧
  Parser.penalised_score false true 0 = 0.19999999999999996%float ∧
  Py.round (Parser.penalised_score false true 0) 2 = 0.2%float ∧
  (0 <? 0.19999999999999996)%float = true.
Proof.
  split; [apply penalised_score_lower_bound | by vm_compute].
Qed.

(** C9: on every input the compatibility analysis returns a status
    other than [incompatible]: when no external API is required the
    score is at least 0.8, and a score below 0.5 comes with
    [requires_external_api]. *)
Theorem status_never_incompatible requirements node_analysis :
  let compatibility :=
    Parser._analyze_compatibility requirements node_analysis in
  let score := Parser.raw_score requirements node_analysis in
  Parser.status compatibility ≠ Parser.incompatible ∧
  implb (negb (Parser.requires_external_api compatibility))
        (0.8 <=? score)%float = true ∧
  implb (score <? 0.5)%float
        (Parser.requires_external_api compatibility) = true.
Proof.
  unfold Parser._analyze_compatibility, Parser.raw_score.
  cbn [Parser.status Parser.requires_external_api].
  destruct (Parser.has_local_ai _), (0 <? length _)%nat,
           (length (Parser.services _)); by vm_compute.
Qed.

End compatibility_claims.

(** ** The record builder *)

Section builder_claims.

(** The analysis-derived fields of a built record come from the
    document's node list. *)
Lemma parse_workflow_analysis files json_path source_repo env workflow env' :
  Parser.parse_workflow files json_path source_repo env
    = (Some workflow, env') →
  ∃ workflow_data,
    files (Parser.path_str json_path) = Parser.Document workflow_data ∧
    Parser.compatibility workflow
      = Parser.compatibility_of (Parser.doc_nodes workflow_data) ∧
    Parser.difficulty workflow
      = Parser._determine_difficulty
          (Parser._analyze_nodes (Parser.doc_nodes workflow_data)) ∧
    Parser.node_count (Parser.metadata workflow)
      = length (Parser.doc_nodes workflow_data).
Proof.
  unfold Parser.parse_workflow.
  destruct (files _) as [| |workflow_data]; [done..|].
  unfold Sys.uuid4, Sys.utcnow.
  cbn [Sys.clock Sys.clock_reads Sys.uuids Sys.uuids_drawn].
  destruct (Parser._categorize_workflow _ _ _) as [category subcategory].
  intros [= <- <-]. by exists workflow_data.
Qed.

(** The two timestamps of a built record are the ISO texts of two
    successive readings of the clock. *)
Lemma parse_workflow_readings files json_path source_repo env workflow env' :
  Parser.parse_workflow files json_path source_repo env
    = (Some workflow, env') →
  Parser.created_at workflow
    = Sys.isoformat (Sys.clock env (Sys.clock_reads env)) ∧
  Parser.updated_at workflow
    = Sys.isoformat (Sys.clock env (S (Sys.clock_reads env))) ∧
  Parser.last_synced workflow = None ∧
  Sys.clock_reads env' = S (S (Sys.clock_reads env)).
Proof.
  unfold Parser.parse_workflow.
  destruct (files _) as [| |workflow_data]; [done..|].
  unfold Sys.uuid4, Sys.utcnow.
  cbn [Sys.clock Sys.clock_reads Sys.uuids Sys.uuids_drawn].
  destruct (Parser._categorize_workflow _ _ _) as [category subcategory].
  intros [= <- <-]. done.
Qed.

(** C8, as the specification words it, fails: the two timestamps come
    from two readings of the clock.  When the clock has moved between
    them, as it does in [ticking_env], [created_at] is
    2024-05-17T09:30:12.480215 and [updated_at] is
    2024-05-17T09:30:12.480232. *)
Lemma created_at_may_differ_from_updated_at :
  ¬ (∀ files json_path source_repo env workflow env',
       Parser.parse_workflow files json_path source_repo env
         = (Some workflow, env') →
       Parser.created_at workflow = Parser.updated_at workflow ∧
       Parser.last_synced workflow = None).
Proof.
  intros H.
  destruct (Parser.parse_workflow digest_files digest_path
              "Zie619/n8n-workflows" ticking_env) as [[w|] env'] eqn:Hparse.
  - pose proof (H _ _ _ _ _ _ Hparse) as [Heq _]. clear H.
    apply (f_equal fst) in Hparse. vm_compute in Hparse.
    injection Hparse as <-. vm_compute in Heq. discriminate.
  - apply (f_equal fst) in Hparse. vm_compute in Hparse. discriminate.
Qed.

(** C8, amended: for every successfully parsed workflow document,
    [created_at] is the ISO text of the clock's next reading and
    [updated_at] that of the reading after it, the call reads the clock
    exactly these two times, and [last_synced] is unset.  The two
    readings being datetimes within their field ranges, the two stamps
    are equal exactly when the two readings are the same instant. *)
Theorem parse_workflow_timestamps
    files json_path source_repo env workflow env' :
  Parser.parse_workflow files json_path source_repo env
    = (Some workflow, env') →
  Parser.created_at workflow
    = Sys.isoformat (Sys.clock env (Sys.clock_reads env)) ∧
  Parser.updated_at workflow
    = Sys.isoformat (Sys.clock env (S (Sys.clock_reads env))) ∧
  Parser.last_synced workflow = None ∧
  Sys.clock_reads env' = S (S (Sys.clock_reads env)) ∧
  (Sys.valid (Sys.clock env (Sys.clock_reads env)) = true →
   Sys.valid (Sys.clock env (S (Sys.clock_reads env))) = true →
   (Parser.created_at workflow = Parser.updated_at workflow ↔
    Sys.clock env (Sys.clock_reads env)
      = Sys.clock env (S (Sys.clock_reads env)))).
Proof.
  intros (Hcreated & Hupdated & Hsynced & Hreads)%parse_workflow_readings.
  split_and!; [done..|].
  intros Hfirst Hsecond. rewrite Hcreated, Hupdated. split.
  - by apply isoformat_inj.
  - by intros ->.
Qed.

Lemma parse_workflow_timestamps_witness :
  ∃ workflow,
    digest_workflow = Some workflow ∧
    Parser.created_at workflow = "2024-05-17T09:30:12.480215" ∧
    Parser.updated_at workflow = "2024-05-17T09:30:12.480232" ∧
    Parser.last_synced workflow = None ∧
    Parser.created_at workflow ≠ Parser.updated_at workflow.
Proof.
  destruct (Parser.parse_workflow digest_files digest_path
              "Zie619/n8n-workflows" ticking_env) as [[w|] env'] eqn:Hparse.
  - exists w. split; [unfold digest_workflow; by rewrite Hparse|].
    destruct (parse_workflow_timestamps _ _ _ _ _ _ Hparse)
      as (Hcreated & Hupdated & Hsynced & _ & Hsame).
    split_and!.
    + by rewrite Hcreated.
    + by rewrite Hupdated.
    + done.
    + intros Heq. apply Hsame in Heq; [|by vm_compute..].
      vm_compute in Heq. discriminate.
  - apply (f_equal fst) in Hparse. vm_compute in Hparse. discriminate.
Defined.

End builder_claims.

(** ** The catalog store *)

Section store_facts.

Implicit Types (db : Database.Db) (rows : list (Z * Database.Row)).

Lemma find_app_None rows (r : Z * Database.Row) (f : Z * Database.Row → bool) :
  List.find f rows = None → f r = true → List.find f (rows ++ [r]) = Some r.
Proof.
  induction rows as [|r' rows IH]; simpl; intros Hnone Hr.
  - by rewrite Hr.
  - destruct (f r'); [done|]. by apply IH.
Qed.

Lemma has_id_false_find db workflow_id :
  Database.has_id db workflow_id = false →
  List.find (λ r, String.eqb (Database.id r.2) workflow_id)
            (Database.workflows db) = None.
Proof.
  unfold Database.has_id.
  induction (Database.workflows db) as [|r rows IH]; simpl; [done|].
  destruct (String.eqb _ _); [done|]. apply IH.
Qed.

Lemma get_workflow_None_rows db workflow_id :
  Database.get_workflow db workflow_id = None →
  Forall (λ r, String.eqb (Database.id r.2) workflow_id = false)
         (Database.workflows db).
Proof.
  unfold Database.get_workflow.
  induction (Database.workflows db) as [|r rows IH]; simpl; [by constructor|].
  destruct (String.eqb _ _) eqn:Hid; [done|].
  intros Hnone. constructor; [done|]. by apply IH.
Qed.

(** The integers of a record can be bound when each is a 64-bit signed
    integer. *)
Lemma fits_int64_spec z :
  Sql.fits_int64 z = true ↔ (- 2 ^ 63 ≤ z < 2 ^ 63)%Z.
Proof.
  unfold Sql.fits_int64. rewrite andb_true_iff, Z.leb_le, Z.ltb_lt. done.
Qed.

Lemma storable_spec workflow :
  Database.storable workflow = true ↔
  (- 2 ^ 63 ≤ Z.of_nat (Parser.node_count (Parser.metadata workflow))
     < 2 ^ 63)%Z ∧
  (- 2 ^ 63 ≤ Parser.popularity_score (Parser.stats workflow) < 2 ^ 63)%Z ∧
  (- 2 ^ 63 ≤ Parser.import_count (Parser.stats workflow) < 2 ^ 63)%Z.
Proof.
  unfold Database.storable.
  rewrite !andb_true_iff, !fits_int64_spec. tauto.
Qed.

(** A row is found again under the key it was stored with. *)
Lemma insert_then_get db workflow db' :
  Database.insert_workflow db workflow = (db', true) →
  Database.get_workflow db' (Parser.id workflow)
    = Some (Database.row_of_workflow workflow).
Proof.
  unfold Database.insert_workflow.
  destruct (Database.storable _); [|done]. cbn [negb].
  destruct (Database.has_id _ _) eqn:Hid; [done|].
  intros [= <-]. unfold Database.get_workflow. cbn [Database.workflows].
  rewrite (find_app_None _ (Database.next_rowid db,
                            Database.row_of_workflow workflow)); [done|..].
  - by apply has_id_false_find.
  - cbn. apply String.eqb_refl.
Qed.

End store_facts.

Section search_facts.

Variable fts_match : string → Database.Row → bool.

(** Every row a search returns passed the [LIKE] test of every requested
    tag; it is this test, not membership, that the filter applies. *)
Lemma search_workflows_like
    db query category difficulty local_ai_only tags limit offset r tag :
  r ∈ Database.search_workflows fts_match db query category difficulty
        local_ai_only tags limit offset →
  tag ∈ tags →
  Sql.like (Database.tag_pattern tag) (Database.tags r) = true.
Proof.
  unfold Database.search_workflows, Sql.limit_offset. intros Hr Htag.
  assert (r ∈ merge_sort Database.ranks_before
            (List.filter
               (λ r, forallb (λ condition, condition r)
                  (Database.conditions fts_match query category difficulty
                     local_ai_only tags))
               (snd <$> Database.workflows db))) as Hsorted.
  { destruct (limit <? 0)%Z.
    - eapply elem_of_sublist; [done|apply sublist_drop].
    - eapply elem_of_sublist; [done|].
      etrans; [apply sublist_take|apply sublist_drop]. }
  rewrite merge_sort_Permutation in Hsorted.
  apply list_elem_of_In, filter_In in Hsorted as [_ Hwhere].
  rewrite forallb_forall in Hwhere.
  apply (Hwhere (λ r, Sql.like (Database.tag_pattern tag) (Database.tags r))).
  apply list_elem_of_In. unfold Database.conditions.
  rewrite !elem_of_app. do 4 right.
  by apply (list_elem_of_fmap_2
              (λ tag r, Sql.like (Database.tag_pattern tag) (Database.tags r))).
Qed.

End search_facts.

Section store_claims.

Lemma digest_record_parsed : digest_workflow = Some digest_record.
Proof. by vm_compute. Qed.

Lemma digest_inserted :
  Database.insert_workflow (Database.init_db None) digest_record
    = (digest_db, true).
Proof. by vm_compute. Qed.

(** C4 on the store holding the digest workflow, whose tags are
    ai, email and gmail: a search for the tag [_mail] returns it, since
    the underscore of the requested tag is read as the one-character
    wildcard of [LIKE]; so does a search for [EMAIL], since [LIKE]
    folds ASCII case.  Neither is an element of the tag list. *)
Theorem tag_filter_reads_wildcards (fts_match : string → Database.Row → bool) :
  ("_mail" ∉ Parser.tags digest_record) ∧
  ("EMAIL" ∉ Parser.tags digest_record) ∧
  Database.search_workflows fts_match digest_db None None None false
                            ["_mail"] 20 0
    = [Database.row_of_workflow digest_record] ∧
  Database.search_workflows fts_match digest_db None None None false
                            ["EMAIL"] 20 0
    = [Database.row_of_workflow digest_record] ∧
  Database.search_workflows fts_match digest_db None None None false
                            ["mail"] 20 0
    = [].
Proof.
  split_and!; [| |by vm_compute..];
    intros Hin; repeat (apply elem_of_cons in Hin as [Hin|Hin]; [done|]);
    by apply elem_of_nil in Hin.
Qed.

(** C5, as the specification words it, fails: what [get_workflow]
    returns is the stored row, not the record.  For the digest workflow
    the field [tags] comes back as the text
    ["ai", "email", "gmail"] where the record holds a list, and the
    nested field [metadata] does not come back at all. *)
Lemma get_workflow_is_not_the_record :
  ¬ (∀ db workflow db',
       Database.insert_workflow db workflow = (db', true) →
       ∃ got, Database.get_workflow_dict db' (Parser.id workflow) = Some got ∧
              same_fields (Parser.to_dict workflow) got = true).
Proof.
  intros H.
  destruct (H _ _ _ digest_inserted) as (got & Hgot & Hsame). clear H.
  vm_compute in Hgot. injection Hgot as <-.
  vm_compute in Hsame. discriminate.
Qed.

(** C5, amended: after [insert_workflow] returns success,
    [get_workflow] on the record's id returns the row stored for it,
    whose 36 columns are determined by the record as follows.  The
    string-valued top-level fields are equal to the record's.  The
    fields of metadata, requirements, compatibility and stats are
    columns of their own (status under [compatibility_status]).  Each
    list-valued field is its JSON text.  Each flag is 1 or 0.  The
    integers are the record's.  The two float fields are the record's,
    except that NaN is stored as NULL (and read as [None]) and a zero
    without its sign.  There is no [metadata], [requirements],
    [compatibility] or [stats] entry, and no rowid. *)
Theorem insert_get_round_trip db workflow db' :
  Database.insert_workflow db workflow = (db', true) →
  ∃ row,
    Database.get_workflow db' (Parser.id workflow) = Some row ∧
    Database.id row = Parser.id workflow ∧
    Database.name row = Parser.name workflow ∧
    Database.description row = Parser.description workflow ∧
    Database.category row = Parser.category workflow ∧
    Database.subcategory row = Parser.subcategory workflow ∧
    Database.difficulty row
      = Parser.difficulty_value (Parser.difficulty workflow) ∧
    Database.author row = Parser.author workflow ∧
    Database.source_repo row = Parser.source_repo workflow ∧
    Database.source_url row = Parser.source_url workflow ∧
    Database.json_path row = Parser.json_path workflow ∧
    Database.tags row = Json.dumps_str_list (Parser.tags workflow) ∧
    Database.department row = Parser.department workflow ∧
    Database.use_cases row = Json.dumps_str_list (Parser.use_cases workflow) ∧
    Database.node_count row
      = Z.of_nat (Parser.node_count (Parser.metadata workflow)) ∧
    Database.integrations row
      = Json.dumps_str_list
          (Parser.meta_integrations (Parser.metadata workflow)) ∧
    Database.node_types row
      = Json.dumps_str_list
          (Parser.meta_node_types (Parser.metadata workflow)) ∧
    Database.has_webhook row
      = (if Parser.meta_has_webhook (Parser.metadata workflow)
         then 1 else 0)%Z ∧
    Database.has_schedule row
      = (if Parser.meta_has_schedule (Parser.metadata workflow)
         then 1 else 0)%Z ∧
    Database.estimated_runtime row
      = Parser.estimated_runtime (Parser.metadata workflow) ∧
    Database.credentials row
      = Json.dumps_credentials
          (Parser.credentials (Parser.requirements workflow)) ∧
    Database.services row
      = Json.dumps_str_list (Parser.services (Parser.requirements workflow)) ∧
    Database.external_apis row
      = Json.dumps_str_list
          (Parser.external_apis (Parser.requirements workflow)) ∧
    Database.min_n8n_version row
      = Parser.min_n8n_version (Parser.requirements workflow) ∧
    Database.local_ai row
      = (if Parser.local_ai (Parser.compatibility workflow)
         then 1 else 0)%Z ∧
    Database.requires_external_api row
      = (if Parser.requires_external_api (Parser.compatibility workflow)
         then 1 else 0)%Z ∧
    Database.works_offline row
      = (if Parser.works_offline (Parser.compatibility workflow)
         then 1 else 0)%Z ∧
    Database.pozi_compatible row
      = (if Parser.pozi_compatible (Parser.compatibility workflow)
         then 1 else 0)%Z ∧
    Database.compatibility_status row
      = Parser.status_value (Parser.status (Parser.compatibility workflow)) ∧
    Database.compatibility_score row
      = (let score :=
           Parser.compatibility_score (Parser.compatibility workflow) in
         if PrimFloat.is_nan score then None
         else if PrimFloat.is_zero score then Some 0.0%float
         else Some score) ∧
    Database.popularity_score row
      = Parser.popularity_score (Parser.stats workflow) ∧
    Database.import_count row = Parser.import_count (Parser.stats workflow) ∧
    Database.success_rate row
      = (let rate := Parser.success_rate (Parser.stats workflow) in
         if PrimFloat.is_nan rate then None
         else if PrimFloat.is_zero rate then Some 0.0%float
         else Some rate) ∧
    Database.avg_setup_time row
      = Parser.avg_setup_time (Parser.stats workflow) ∧
    Database.created_at row = Parser.created_at workflow ∧
    Database.updated_at row = Parser.updated_at workflow ∧
    Database.last_synced row = Parser.last_synced workflow ∧
    Value.get "metadata" (Database.row_dict row) = None ∧
    Value.get "requirements" (Database.row_dict row) = None ∧
    Value.get "compatibility" (Database.row_dict row) = None ∧
    Value.get "stats" (Database.row_dict row) = None.
Proof.
  intros Hins. exists (Database.row_of_workflow workflow).
  split; [by eapply insert_then_get|].
  repeat (split; [reflexivity|]). reflexivity.
Qed.

Lemma insert_get_round_trip_witness :
  ∃ row,
    Database.get_workflow two_row_db (Parser.id report_record) = Some row ∧
    Database.name row = "Weekly report" ∧
    Database.tags row = Json.dumps_str_list ["data"; "postgres"] ∧
    Database.has_schedule row = 1%Z ∧
    Database.success_rate row = Some 1.0%float.
Proof.
  destruct (insert_get_round_trip digest_db report_record two_row_db)
    as (row & Hget & Hcolumns); [by vm_compute|].
  destruct_and!. exists row.
  split_and!; (etrans; [eassumption|]); reflexivity.
Defined.

(** A record whose success rate is NaN is stored, and the rate reads
    back as [None]. *)
Lemma nan_rate_reads_None :
  let unrated := with_success_rate PrimFloat.nan report_record in
  ∃ db',
    Database.insert_workflow digest_db unrated = (db', true) ∧
    Database.success_rate <$> Database.get_workflow db' (Parser.id unrated)
      = Some None.
Proof. eexists. split; by vm_compute. Qed.

(** An unmatched [UPDATE] leaves every row as it was. *)
Lemma update_rows_unmatched
    (rows : list (Z * Database.Row)) workflow_id import_count success_rate
    updated_at :
  Forall (λ r, String.eqb (Database.id r.2) workflow_id = false) rows →
  (λ r : Z * Database.Row,
     if String.eqb (Database.id r.2) workflow_id
     then (r.1, Database.set_stats import_count success_rate updated_at r.2)
     else r) <$> rows = rows.
Proof.
  induction 1 as [|r rows Hr _ IH]; [done|].
  rewrite fmap_cons, IH. by rewrite Hr.
Qed.

(** C10, as the specification words it, fails: an [import_count] of
    2^63 cannot be bound to the statement, and the call raises
    [OverflowError] although no stored record has the id. *)
Lemma update_stats_unknown_id_may_raise :
  ¬ (∀ db workflow_id import_count success_rate env,
       Database.get_workflow db workflow_id = None →
       Database.outcome
         (Database.update_workflow_stats db workflow_id import_count
                                         success_rate env)
       = Database.Returned).
Proof.
  intros H.
  specialize (H digest_db "no-such-id" (Some (2 ^ 63)%Z) None ticking_env).
  assert (Database.get_workflow digest_db "no-such-id" = None) as Hnone
    by (by vm_compute).
  apply H in Hnone. clear H. vm_compute in Hnone. discriminate.
Qed.

(** C10, amended: when no stored record has the given id,
    [update_workflow_stats] leaves every stored record unchanged,
    whatever statistics are given.  When [import_count] is absent or a
    64-bit signed integer the call returns, with nothing that tells the
    caller that no record was found; when it is an integer outside
    this range the call raises [OverflowError]. *)
Theorem update_stats_unknown_id
    db workflow_id import_count success_rate env :
  Database.get_workflow db workflow_id = None →
  let updated :=
    Database.update_workflow_stats db workflow_id import_count success_rate
                                   env in
  Database.store updated = db ∧
  ((∀ n, import_count = Some n → - 2 ^ 63 ≤ n < 2 ^ 63)%Z →
   Database.outcome updated = Database.Returned) ∧
  (∀ n, import_count = Some n → ¬ (- 2 ^ 63 ≤ n < 2 ^ 63)%Z →
        Database.outcome updated = Database.Raised Database.OverflowError).
Proof.
  intros Hrows%get_workflow_None_rows. destruct db as [rows].
  cbv zeta. unfold Database.update_workflow_stats, Sys.utcnow.
  cbn [Database.workflows] in Hrows.
  destruct import_count as [n|], success_rate as [rate|];
    cbn [Database.bindable negb Database.workflows];
    unfold Sql.fits_int64;
    try destruct (- 2 ^ 63 <=? n)%Z eqn:Hlow;
    try destruct (n <? 2 ^ 63)%Z eqn:Hhigh;
    cbn [andb negb Database.store Database.outcome];
    rewrite ?update_rows_unmatched by done;
    (split; [done|]); split; try done.
  all: try (intros Hfits; specialize (Hfits n eq_refl); lia).
  all: intros n' [= <-] Hout; lia.
Qed.

Lemma update_stats_unknown_id_witness :
  Database.get_workflow digest_db "no-such-id" = None ∧
  Database.store
    (Database.update_workflow_stats digest_db "no-such-id" (Some 3%Z)
                                    (Some 0.5%float) ticking_env)
    = digest_db ∧
  Database.outcome
    (Database.update_workflow_stats digest_db "no-such-id" (Some 3%Z)
                                    (Some 0.5%float) ticking_env)
    = Database.Returned.
Proof.
  assert (Database.get_workflow digest_db "no-such-id" = None) as Hnone
    by (by vm_compute).
  split; [done|].
  destruct (update_stats_unknown_id digest_db "no-such-id" (Some 3%Z)
              (Some 0.5%float) ticking_env Hnone) as (Hstore & Hreturns & _).
  split; [done|]. apply Hreturns. intros n [= <-]. lia.
Defined.

End store_claims.

(** * Further properties of the parser *)

(** ** The node analyzer in closed form *)

Section analyzer_closed_form.

Implicit Types (a : Parser.Acc) (nodes : list Parser.Node).

Lemma credential_keys_loop (s : gset string) keys :
  foldl (λ s cred_type, {[ Py.lower cred_type ]} ∪ s) s keys
  = list_to_set (Py.lower <$> keys) ∪ s.
Proof.
  revert s. induction keys as [|k keys IH]; intros s; simpl.
  - set_solver.
  - rewrite IH. set_solver.
Qed.

Lemma acc_integrations_loop a nodes :
  Parser.acc_integrations (foldl Parser.analyze_node a nodes)
  = list_to_set
      (omap (λ node, Parser.integration_of (Parser.get_type node)) nodes)
    ∪ Parser.acc_integrations a.
Proof.
  revert a. induction nodes as [|node nodes IH]; intros a; simpl.
  - set_solver.
  - rewrite IH. cbn [Parser.acc_integrations Parser.analyze_node].
    destruct (Parser.integration_of _); set_solver.
Qed.

Lemma acc_credential_types_loop a nodes :
  Parser.acc_credential_types (foldl Parser.analyze_node a nodes)
  = list_to_set (Py.lower <$> (nodes ≫= Parser.credential_keys))
    ∪ Parser.acc_credential_types a.
Proof.
  revert a. induction nodes as [|node nodes IH]; intros a; simpl.
  - set_solver.
  - rewrite IH. cbn [Parser.acc_credential_types Parser.analyze_node].
    rewrite credential_keys_loop, fmap_app. set_solver.
Qed.

Lemma acc_has_webhook_loop a nodes :
  Parser.acc_has_webhook (foldl Parser.analyze_node a nodes)
  = existsb (λ node, Py.contains "webhook" (Py.lower (Parser.get_type node)))
            nodes
    || Parser.acc_has_webhook a.
Proof.
  revert a. induction nodes as [|node nodes IH]; intros a; simpl; [done|].
  rewrite IH. cbn [Parser.acc_has_webhook Parser.analyze_node].
  destruct (Py.contains _ _); simpl; [apply orb_true_r|done].
Qed.

Lemma acc_has_schedule_loop a nodes :
  Parser.acc_has_schedule (foldl Parser.analyze_node a nodes)
  = existsb (λ node,
               Py.contains "schedule" (Py.lower (Parser.get_type node))
               || Py.contains "cron" (Py.lower (Parser.get_type node)))
            nodes
    || Parser.acc_has_schedule a.
Proof.
  revert a. induction nodes as [|node nodes IH]; intros a; simpl; [done|].
  rewrite IH. cbn [Parser.acc_has_schedule Parser.analyze_node].
  destruct (_ || _) eqn:E at 2; rewrite E; simpl; [apply orb_true_r|done].
Qed.

Lemma acc_has_local_ai_loop a nodes :
  Parser.acc_has_local_ai (foldl Parser.analyze_node a nodes)
  = existsb (λ node,
               bool_decide (Parser.get_type node ∈ Parser.LOCAL_AI_NODES))
            nodes
    || Parser.acc_has_local_ai a.
Proof.
  revert a. induction nodes as [|node nodes IH]; intros a; simpl; [done|].
  rewrite IH. cbn [Parser.acc_has_local_ai Parser.analyze_node].
  destruct (bool_decide _); simpl; [apply orb_true_r|done].
Qed.

Lemma existsb_same_elements {A} (f : A → bool) (l l' : list A) :
  (∀ x, x ∈ l ↔ x ∈ l') → existsb f l = existsb f l'.
Proof.
  intros Hsame. apply eq_true_iff_eq.
  rewrite !existsb_exists. setoid_rewrite <-list_elem_of_In.
  split; intros (x & Hx & Hf); exists x; split; try done; by apply Hsame.
Qed.

End analyzer_closed_form.

Section analyzer_extras.

Implicit Types (nodes : list Parser.Node).

Lemma analyze_nodes_closed nodes :
  Parser._analyze_nodes nodes =
  {| Parser.integrations :=
       Py.sorted
         (list_to_set
            (omap (λ node, Parser.integration_of (Parser.get_type node))
                  nodes));
     Parser.node_types :=
       Py.sorted (list_to_set (Parser.get_type <$> nodes));
     Parser.has_webhook :=
       existsb (λ node,
                  Py.contains "webhook" (Py.lower (Parser.get_type node)))
               nodes;
     Parser.has_schedule :=
       existsb (λ node,
                  Py.contains "schedule" (Py.lower (Parser.get_type node))
                  || Py.contains "cron" (Py.lower (Parser.get_type node)))
               nodes;
     Parser.has_local_ai :=
       existsb (λ node,
                  bool_decide (Parser.get_type node ∈ Parser.LOCAL_AI_NODES))
               nodes;
     Parser.credential_types :=
       Py.sorted
         (list_to_set (Py.lower <$> (nodes ≫= Parser.credential_keys))) |}.
Proof.
  unfold Parser._analyze_nodes.
  rewrite acc_integrations_loop, acc_node_types_loop, acc_has_webhook_loop,
    acc_has_schedule_loop, acc_has_local_ai_loop, acc_credential_types_loop.
  cbn [Parser.acc_init Parser.acc_integrations Parser.acc_node_types
       Parser.acc_has_webhook Parser.acc_has_schedule Parser.acc_has_local_ai
       Parser.acc_credential_types].
  by rewrite !(right_id_L ∅ (∪)), !orb_false_r.
Qed.

(** X1: the analysis depends on which nodes a workflow has, not on their
    order or on how often one occurs. *)
Theorem analyze_nodes_same_elements nodes nodes' :
  (∀ node, node ∈ nodes ↔ node ∈ nodes') →
  Parser._analyze_nodes nodes = Parser._analyze_nodes nodes'.
Proof.
  intros Hsame. rewrite !analyze_nodes_closed.
  f_equal; try by apply existsb_same_elements.
  - f_equal. apply set_eq. intros x.
    rewrite !elem_of_list_to_set, !list_elem_of_omap. naive_solver.
  - f_equal. apply set_eq. intros x.
    rewrite !elem_of_list_to_set, !list_elem_of_fmap. naive_solver.
  - f_equal. apply set_eq. intros x.
    rewrite !elem_of_list_to_set, !list_elem_of_fmap.
    setoid_rewrite list_elem_of_bind. naive_solver.
Qed.

Lemma analyze_nodes_same_elements_witness :
  Parser._analyze_nodes [slack_node; gmail_node; slack_node]
  = Parser._analyze_nodes [gmail_node; slack_node].
Proof.
  apply (analyze_nodes_same_elements [slack_node; gmail_node; slack_node]
                                     [gmail_node; slack_node]).
  intros node. rewrite !elem_of_cons, elem_of_nil. tauto.
Defined.

(** X2: the three flags of the analysis say that some node has a type
    with "webhook" in it, with "schedule" or "cron" in it (both without
    regard to case), and of the local-AI catalogue (an exact match). *)
Theorem analyze_nodes_flags nodes :
  (Parser.has_webhook (Parser._analyze_nodes nodes) = true ↔
   ∃ node, node ∈ nodes ∧
     Py.contains "webhook" (Py.lower (Parser.get_type node)) = true) ∧
  (Parser.has_schedule (Parser._analyze_nodes nodes) = true ↔
   ∃ node, node ∈ nodes ∧
     (Py.contains "schedule" (Py.lower (Parser.get_type node)) = true ∨
      Py.contains "cron" (Py.lower (Parser.get_type node)) = true)) ∧
  (Parser.has_local_ai (Parser._analyze_nodes nodes) = true ↔
   ∃ node, node ∈ nodes ∧ Parser.get_type node ∈ Parser.LOCAL_AI_NODES).
Proof.
  rewrite analyze_nodes_closed.
  cbn [Parser.has_webhook Parser.has_schedule Parser.has_local_ai].
  rewrite !existsb_exists. setoid_rewrite <-list_elem_of_In.
  setoid_rewrite orb_true_iff. setoid_rewrite bool_decide_eq_true.
  done.
Qed.

(** X3: an integration is listed exactly when some node's type yields
    it, and a credential type exactly when it is the lower-cased key of
    some node's credentials. *)
Theorem analyze_nodes_members nodes :
  (∀ x, x ∈ Parser.integrations (Parser._analyze_nodes nodes) ↔
        ∃ node, node ∈ nodes ∧
          Parser.integration_of (Parser.get_type node) = Some x) ∧
  (∀ x, x ∈ Parser.credential_types (Parser._analyze_nodes nodes) ↔
        ∃ node key, node ∈ nodes ∧ key ∈ Parser.credential_keys node ∧
          Py.lower key = x).
Proof.
  rewrite analyze_nodes_closed.
  cbn [Parser.integrations Parser.credential_types].
  split; intros x; rewrite elem_of_sorted, elem_of_list_to_set.
  - by rewrite list_elem_of_omap.
  - rewrite list_elem_of_fmap. setoid_rewrite list_elem_of_bind.
    naive_solver.
Qed.

End analyzer_extras.

(** ** Requirements *)

Section requirements_extras.

Implicit Types (nodes : list Parser.Node).
Implicit Types (node_analysis : Parser.NodeAnalysis).

Lemma services_of_loop (s : gset string) cred_type (catalogue : list string) :
  foldl (λ s svc, if Py.contains svc cred_type then {[ svc ]} ∪ s else s)
        s catalogue
  = list_to_set (filter (λ svc, Py.contains svc cred_type) catalogue) ∪ s.
Proof.
  revert s. induction catalogue as [|svc l IH]; intros s; simpl.
  - set_solver.
  - rewrite IH, filter_cons.
    destruct (Py.contains svc cred_type); simpl; set_solver.
Qed.

Lemma is_local_iff cred_type :
  Parser.is_local cred_type = true ↔
  ∃ svc, svc ∈ Parser.LOCAL_SERVICES ∧ Py.contains svc cred_type = true.
Proof.
  unfold Parser.is_local. rewrite existsb_exists.
  by setoid_rewrite <-list_elem_of_In.
Qed.

Lemma requirement_loop (r : Parser.ReqAcc) (types : list string) :
  let r' := foldl Parser.requirement_step r types in
  Parser.req_credentials r'
    = Parser.req_credentials r ++
      ((λ c, {| Parser.cred_type := c; Parser.cred_required := true;
                Parser.cred_local := Parser.is_local c;
                Parser.cred_description := None |}) <$> types) ∧
  Parser.req_external_apis r'
    = list_to_set (filter (λ c, Parser.is_local c = false) types)
      ∪ Parser.req_external_apis r ∧
  Parser.req_services r'
    = list_to_set
        (types ≫= λ c, filter (λ svc, Py.contains svc c) Parser.LOCAL_SERVICES)
      ∪ Parser.req_services r.
Proof.
  revert r. induction types as [|c types IH]; intros r; simpl.
  - split_and!; [by rewrite app_nil_r|set_solver..].
  - destruct (IH (Parser.requirement_step r c)) as (Hc & He & Hs).
    rewrite Hc, He, Hs. clear IH Hc He Hs.
    cbn [Parser.requirement_step Parser.req_credentials
         Parser.req_external_apis Parser.req_services].
    split_and!.
    + by rewrite <-app_assoc.
    + rewrite filter_cons. destruct (Parser.is_local c) eqn:Hloc.
      * by rewrite decide_False by done.
      * rewrite decide_True by done. set_solver.
    + destruct (Parser.is_local c) eqn:Hloc.
      * rewrite services_of_loop. set_solver.
      * assert (∀ svc,
                  svc ∉ filter (λ svc, Py.contains svc c) Parser.LOCAL_SERVICES)
          as Hnone; [|set_solver].
        intros svc [Hyes Hin]%list_elem_of_filter.
        assert (Parser.is_local c = true) as Htrue; [|congruence].
        apply is_local_iff. exists svc. split; [done|].
        by apply Is_true_true.
Qed.

Lemma extract_requirements_members nodes node_analysis :
  let requirements := Parser._extract_requirements nodes node_analysis in
  Parser.credentials requirements
    = (λ c, {| Parser.cred_type := c; Parser.cred_required := true;
               Parser.cred_local := Parser.is_local c;
               Parser.cred_description := None |})
      <$> Parser.credential_types node_analysis ∧
  (∀ x, x ∈ Parser.external_apis requirements ↔
        x ∈ Parser.credential_types node_analysis ∧
        Parser.is_local x = false) ∧
  (∀ svc, svc ∈ Parser.services requirements ↔
          svc ∈ Parser.LOCAL_SERVICES ∧
          ∃ c, c ∈ Parser.credential_types node_analysis ∧
               Py.contains svc c = true).
Proof.
  unfold Parser._extract_requirements.
  destruct (requirement_loop
              {| Parser.req_credentials := []; Parser.req_services := ∅;
                 Parser.req_external_apis := ∅ |}
              (Parser.credential_types node_analysis)) as (Hc & He & Hs).
  cbn [Parser.credentials Parser.external_apis Parser.services].
  rewrite Hc, He, Hs.
  cbn [Parser.req_credentials Parser.req_external_apis Parser.req_services].
  rewrite !(right_id_L ∅ (∪)).
  split_and!.
  - done.
  - intros x. rewrite elem_of_sorted, elem_of_list_to_set, list_elem_of_filter.
    tauto.
  - intros svc. rewrite elem_of_sorted, elem_of_list_to_set, list_elem_of_bind.
    setoid_rewrite list_elem_of_filter. setoid_rewrite Is_true_true.
    naive_solver.
Qed.

(** X4: the requirements list one credential entry per credential type,
    in the same order, each marked required and without description,
    local exactly when its type has the name of a local service in it;
    the external APIs are the credential types that are not local, and
    the services are the local-service names found in some credential
    type.  Both lists are sorted and free of duplicates. *)
Theorem extract_requirements_spec nodes node_analysis :
  let requirements := Parser._extract_requirements nodes node_analysis in
  Parser.credentials requirements
    = (λ c, {| Parser.cred_type := c; Parser.cred_required := true;
               Parser.cred_local := Parser.is_local c;
               Parser.cred_description := None |})
      <$> Parser.credential_types node_analysis ∧
  (∀ x, x ∈ Parser.external_apis requirements ↔
        x ∈ Parser.credential_types node_analysis ∧
        Parser.is_local x = false) ∧
  (∀ svc, svc ∈ Parser.services requirements ↔
          svc ∈ Parser.LOCAL_SERVICES ∧
          ∃ c, c ∈ Parser.credential_types node_analysis ∧
               Py.contains svc c = true) ∧
  (StronglySorted String.le (Parser.external_apis requirements) ∧
   NoDup (Parser.external_apis requirements)) ∧
  (StronglySorted String.le (Parser.services requirements) ∧
   NoDup (Parser.services requirements)).
Proof.
  intros requirements.
  destruct (extract_requirements_members nodes node_analysis)
    as (Hc & He & Hs).
  split_and!; try done;
    first [apply StronglySorted_sorted | apply NoDup_sorted].
Qed.

(** X5: every credential type of the analysis is accounted for: it is an
    external API, or it puts at least one local service on the list;
    never both. *)
Theorem credential_external_or_local nodes node_analysis c :
  c ∈ Parser.credential_types node_analysis →
  let requirements := Parser._extract_requirements nodes node_analysis in
  (c ∈ Parser.external_apis requirements ∧ Parser.is_local c = false) ∨
  ((c ∉ Parser.external_apis requirements) ∧
   ∃ svc, svc ∈ Parser.services requirements ∧ Py.contains svc c = true).
Proof.
  intros Hc requirements.
  destruct (extract_requirements_members nodes node_analysis)
    as (_ & Hext & Hsvc).
  fold requirements in Hext, Hsvc.
  destruct (Parser.is_local c) eqn:Hloc.
  - right. split.
    + rewrite Hext. intros [_ ?]. congruence.
    + apply is_local_iff in Hloc as (svc & Hin & Hcontains).
      exists svc. split; [|done]. apply Hsvc. eauto.
  - left. split; [|done]. apply Hext. done.
Qed.

Lemma credential_external_or_local_witness :
  let requirements :=
    Parser._extract_requirements [slack_node]
                                 (Parser._analyze_nodes [slack_node]) in
  ("slackapi" ∈ Parser.external_apis requirements ∧
   Parser.is_local "slackapi" = false) ∨
  (("slackapi" ∉ Parser.external_apis requirements) ∧
   ∃ svc, svc ∈ Parser.services requirements ∧
          Py.contains svc "slackapi" = true).
Proof.
  apply (credential_external_or_local
           [slack_node] (Parser._analyze_nodes [slack_node]) "slackapi").
  vm_compute. constructor.
Defined.

End requirements_extras.

(** ** Compatibility *)

Section compatibility_extras.

Implicit Types (requirements : Parser.Requirements).
Implicit Types (node_analysis : Parser.NodeAnalysis).

(** X6: the score of a record is one of 1.0, 0.8, 0.7, 0.5, 0.4 and
    0.2, whatever the requirements and the analysis; it lies between 0
    and 1, as the response model asks. *)
Theorem compatibility_score_values requirements node_analysis :
  let score :=
    Parser.compatibility_score
      (Parser._analyze_compatibility requirements node_analysis) in
  score ∈ possible_scores ∧
  (0 <=? score)%float = true ∧ (score <=? 1)%float = true.
Proof.
  unfold Parser._analyze_compatibility.
  cbn [Parser.compatibility_score].
  destruct (Parser.has_local_ai _), (0 <? length _)%nat,
           (length (Parser.services _));
    (split; [vm_compute; repeat constructor|by vm_compute]).
Qed.

(** X7: when an external API is required, a local-AI node is present
    and no local service is used, the record carries the score 0.5 and
    yet is not marked compatible: the comparison is made on the
    unrounded 0.49999999999999994, so the status is requires_external
    and pozi_compatible is false. *)
Theorem half_score_not_compatible requirements node_analysis :
  Parser.has_local_ai node_analysis = true →
  Parser.external_apis requirements ≠ [] →
  Parser.services requirements = [] →
  let compatibility :=
    Parser._analyze_compatibility requirements node_analysis in
  Parser.compatibility_score compatibility = 0.5%float ∧
  Parser.pozi_compatible compatibility = false ∧
  Parser.status compatibility = Parser.requires_external.
Proof.
  intros Hai Hext Hsvc. unfold Parser._analyze_compatibility.
  rewrite Hai, Hsvc.
  destruct (Parser.external_apis requirements); [done|].
  by vm_compute.
Qed.

Lemma half_score_not_compatible_witness :
  Parser.compatibility_score (Parser.compatibility_of [agent_node])
    = 0.5%float ∧
  Parser.pozi_compatible (Parser.compatibility_of [agent_node]) = false ∧
  Parser.status (Parser.compatibility_of [agent_node])
    = Parser.requires_external.
Proof.
  apply (half_score_not_compatible
           (Parser._extract_requirements
              [agent_node] (Parser._analyze_nodes [agent_node]))
           (Parser._analyze_nodes [agent_node])).
  - by vm_compute.
  - vm_compute. discriminate.
  - by vm_compute.
Defined.

(** X8: a workflow that needs no external API is fully compatible: it
    works offline, is marked compatible and scores 1.0 with a local
    service and 0.8 without. *)
Theorem no_external_api_fully_compatible requirements node_analysis :
  Parser.external_apis requirements = [] →
  let compatibility :=
    Parser._analyze_compatibility requirements node_analysis in
  Parser.status compatibility = Parser.fully_compatible ∧
  Parser.requires_external_api compatibility = false ∧
  Parser.works_offline compatibility = true ∧
  Parser.pozi_compatible compatibility = true ∧
  Parser.compatibility_score compatibility
    = (if decide (Parser.services requirements = []) then 0.8 else 1.0)%float.
Proof.
  intros Hext. unfold Parser._analyze_compatibility. rewrite Hext.
  destruct (Parser.has_local_ai _), (Parser.services requirements);
    by vm_compute.
Qed.

Lemma no_external_api_fully_compatible_witness :
  Parser.status (Parser.compatibility_of [set_node])
    = Parser.fully_compatible ∧
  Parser.requires_external_api (Parser.compatibility_of [set_node]) = false ∧
  Parser.works_offline (Parser.compatibility_of [set_node]) = true ∧
  Parser.pozi_compatible (Parser.compatibility_of [set_node]) = true ∧
  Parser.compatibility_score (Parser.compatibility_of [set_node])
    = 0.8%float.
Proof.
  apply (no_external_api_fully_compatible
           (Parser._extract_requirements
              [set_node] (Parser._analyze_nodes [set_node]))
           (Parser._analyze_nodes [set_node])).
  by vm_compute.
Defined.

(** X9: a record is marked compatible exactly when its status is fully
    or partially compatible, and it has the status requires_external
    exactly when it is not. *)
Theorem pozi_compatible_iff_status requirements node_analysis :
  let compatibility :=
    Parser._analyze_compatibility requirements node_analysis in
  (Parser.pozi_compatible compatibility = true ↔
   Parser.status compatibility = Parser.fully_compatible ∨
   Parser.status compatibility = Parser.partially_compatible) ∧
  (Parser.pozi_compatible compatibility = false ↔
   Parser.status compatibility = Parser.requires_external).
Proof.
  unfold Parser._analyze_compatibility.
  cbn [Parser.pozi_compatible Parser.status].
  destruct (Parser.has_local_ai _), (0 <? length _)%nat,
           (length (Parser.services _)); vm_compute; naive_solver.
Qed.

End compatibility_extras.

(** ** The classifier *)

Section classifier_extras.

Implicit Types (node_analysis : Parser.NodeAnalysis).
Implicit Types (workflow_data : Parser.WorkflowData).

Lemma StronglySorted_take {A} (R : relation A) n (l : list A) :
  StronglySorted R l → StronglySorted R (take n l).
Proof.
  intros Hl. revert n. induction Hl as [|x l Hl IH Hx]; intros [|n]; simpl;
    try by constructor.
  constructor; [apply IH|].
  eapply Forall_forall. intros y Hy.
  eapply Forall_forall; [exact Hx|].
  eapply elem_of_sublist; [done|apply sublist_take].
Qed.

Lemma keyword_tags_loop (tags : gset string) text
    (table : list (string * list string)) :
  foldl (λ (tags : gset string) kw,
           if Py.any_in kw.2 text then {[ kw.1 ]} ∪ tags else tags)
        tags table
  = list_to_set (fst <$> filter (λ kw, Py.any_in kw.2 text) table) ∪ tags.
Proof.
  revert tags. induction table as [|kw table IH]; intros tags; simpl.
  - set_solver.
  - rewrite IH, filter_cons.
    destruct (Py.any_in kw.2 text); simpl; set_solver.
Qed.

Lemma integration_tags_loop (tags : gset string) (l : list string) :
  foldl (λ (tags : gset string) integration, {[ integration ]} ∪ tags) tags l
  = list_to_set l ∪ tags.
Proof.
  revert tags. induction l as [|x l IH]; intros tags; simpl.
  - set_solver.
  - rewrite IH. set_solver.
Qed.

(** X10: a workflow gets at most ten tags; they are sorted in ascending
    order and none occurs twice, also when the source lists a tag more
    than once. *)
Theorem extract_tags_bounded_sorted
    workflow_data name description node_analysis :
  let tags :=
    Parser._extract_tags workflow_data name description node_analysis in
  length tags ≤ 10 ∧ StronglySorted String.le tags ∧ NoDup tags.
Proof.
  unfold Parser._extract_tags. split_and!.
  - rewrite length_take. lia.
  - apply StronglySorted_take, StronglySorted_sorted.
  - eapply sublist_NoDup; [apply NoDup_sorted|apply sublist_take].
Qed.

(** X11: every tag of a workflow is a tag the source carries (the name
    of a tag object, empty when it has none, or a plain string), or the
    label of a keyword group with a keyword in the lower-cased name and
    description, or one of the first five integrations. *)
Theorem extract_tags_origin
    workflow_data name description node_analysis tag :
  tag ∈ Parser._extract_tags workflow_data name description node_analysis →
  (∃ existing_tags t,
     Parser.doc_tags workflow_data = Some existing_tags ∧
     t ∈ existing_tags ∧ Parser.tag_text t = tag) ∨
  (∃ keywords,
     (tag, keywords) ∈ Parser.tag_keywords ∧
     Py.any_in keywords (Parser.search_text name description) = true) ∨
  tag ∈ take 5 (Parser.integrations node_analysis).
Proof.
  unfold Parser._extract_tags. intros Hin.
  eapply elem_of_sublist in Hin; [|apply sublist_take].
  rewrite elem_of_sorted, integration_tags_loop, keyword_tags_loop in Hin.
  apply elem_of_union in Hin as [Hin|Hin]; [by right; right; set_solver|].
  apply elem_of_union in Hin as [Hin|Hin].
  - right; left.
    apply elem_of_list_to_set, list_elem_of_fmap in Hin
      as ([label keywords] & -> & [Hhit Hkw]%list_elem_of_filter).
    exists keywords. split; [done|]. by apply Is_true_true.
  - left. destruct (Parser.doc_tags workflow_data) as [existing_tags|];
      [|set_solver].
    apply elem_of_list_to_set, list_elem_of_fmap in Hin as (t & -> & Ht).
    by exists existing_tags, t.
Qed.

Lemma extract_tags_origin_witness :
  (∃ existing_tags t,
     Parser.doc_tags tagged_document = Some existing_tags ∧
     t ∈ existing_tags ∧ Parser.tag_text t = "Support") ∨
  (∃ keywords,
     ("Support", keywords) ∈ Parser.tag_keywords ∧
     Py.any_in keywords
       (Parser.search_text "Chat with your PDF documents"
                           (Some "Answer a question from a file")) = true) ∨
  "Support" ∈ take 5 (Parser.integrations
                        (Parser._analyze_nodes [agent_node; gmail_node])).
Proof.
  apply (extract_tags_origin tagged_document "Chat with your PDF documents"
           (Some "Answer a question from a file")
           (Parser._analyze_nodes [agent_node; gmail_node]) "Support").
  vm_compute. repeat constructor.
Defined.

Lemma sublist_omap_labels (hit : string * list string → bool)
    (table : list (string * list string)) :
  omap (λ p, if hit p then Some p.1 else None) table
    `sublist_of` (fst <$> table).
Proof.
  induction table as [|p table IH]; simpl; [constructor|].
  destruct (hit p); by constructor.
Qed.

(** X12: a workflow gets at most three use cases; they are labels of
    the six keyword groups, in the order of the groups, and each has at
    least two of its keywords in the lower-cased name and
    description. *)
Theorem extract_use_cases_bounded name description category :
  let use_cases := Parser._extract_use_cases name description category in
  length use_cases ≤ 3 ∧
  use_cases `sublist_of` (fst <$> Parser.use_case_patterns) ∧
  Forall (λ label,
            ∃ keywords,
              (label, keywords) ∈ Parser.use_case_patterns ∧
              2 ≤ length (filter (λ kw,
                             Py.contains kw
                               (Parser.search_text name description))
                           keywords))
         use_cases.
Proof.
  unfold Parser._extract_use_cases. split_and!.
  - rewrite length_take. lia.
  - etrans; [apply sublist_take|].
    apply (sublist_omap_labels
             (λ p, (2 <=? length (filter (λ kw,
                      Py.contains kw (Parser.search_text name description))
                    p.2))%nat)).
  - apply Forall_forall. intros label Hin.
    eapply elem_of_sublist in Hin; [|apply sublist_take].
    apply list_elem_of_omap in Hin as ([label' keywords] & Hp & Hhit).
    cbn [fst snd] in Hhit. destruct (2 <=? _)%nat eqn:Hle; [|done].
    injection Hhit as <-. exists keywords. split; [done|].
    by apply Nat.leb_le.
Qed.

(** X13: the classifier gives one of ten pairs of category and
    subcategory, and the department follows from the category: the
    three AI pairs go to Engineering, the four communication pairs to
    Operations, data to Analytics, business to Executive, and the
    default pair to no department. *)
Theorem categorize_in_table name description node_analysis tags :
  let result :=
    Parser._categorize_workflow name description node_analysis in
  (result.1, result.2, Parser._determine_department result.1 tags)
    ∈ category_table.
Proof.
  unfold Parser._categorize_workflow.
  repeat match goal with
         | |- context [if ?b then _ else _] => destruct b
         end;
    vm_compute; repeat constructor.
Qed.

(** X14: the AI rule comes first and reads substrings: a name or
    description with "ai", "rag", "llm", "gpt", "agent" or "langchain"
    anywhere in it, after lower-casing, puts the workflow under
    AI & Machine Learning whatever its integrations. *)
Theorem ai_term_wins name description node_analysis :
  Py.any_in ["ai"; "rag"; "llm"; "gpt"; "agent"; "langchain"]
            (Parser.search_text name description) = true →
  (Parser._categorize_workflow name description node_analysis).1
    = "AI & Machine Learning".
Proof.
  intros Hai. unfold Parser._categorize_workflow. rewrite Hai.
  by repeat case_match.
Qed.

Lemma ai_term_wins_witness :
  (Parser._categorize_workflow "Email digest" None
     (Parser._analyze_nodes [gmail_node])).1
    = "AI & Machine Learning".
Proof.
  apply (ai_term_wins "Email digest" None (Parser._analyze_nodes [gmail_node])).
  by vm_compute.
Defined.

(** The runtime estimate goes with the difficulty: under a minute
    for beginner, one to five minutes for intermediate, five and more
    for advanced. *)
Lemma runtime_follows_difficulty node_analysis :
  (Parser._determine_difficulty node_analysis,
   Parser._estimate_runtime node_analysis) ∈ runtime_table.
Proof.
  unfold Parser._determine_difficulty, Parser._estimate_runtime.
  repeat case_match; repeat constructor.
Qed.

End classifier_extras.

(** ** Author, description and the record builder *)

Section builder_extras.

Lemma contains_char_cons c d s :
  Py.contains (String c EmptyString) (String d s)
  = Ascii.eqb d c || Py.contains (String c EmptyString) s.
Proof.
  cbn [Py.contains String.prefix].
  destruct (Ascii.ascii_dec c d) as [->|Hne].
  - rewrite Ascii.eqb_refl. by destruct s.
  - assert (Ascii.eqb d c = false) as ->; [|done].
    apply Ascii.eqb_neq. congruence.
Qed.

Lemma split_nonempty sep s : Py.split sep s ≠ [].
Proof. destruct s as [|c s]; simpl; [done|]. by repeat case_match. Qed.

Lemma head_split_no_separator sep s :
  Py.contains (String sep EmptyString)
              (default EmptyString (head (Py.split sep s))) = false.
Proof.
  induction s as [|c s IH]; [done|]. cbn [Py.split].
  destruct (Ascii.eqb c sep) eqn:Hc; [done|].
  destruct (Py.split sep s) as [|p ps] eqn:Hsplit.
  - by apply split_nonempty in Hsplit.
  - change (Py.contains (String sep EmptyString) p = false) in IH.
    change (Py.contains (String sep EmptyString) (String c p) = false).
    by rewrite contains_char_cons, Hc, IH.
Qed.

Lemma head_split_owner sep owner rest :
  Py.contains (String sep EmptyString) owner = false →
  head (Py.split sep (owner +:+ String sep rest)) = Some owner.
Proof.
  induction owner as [|c owner IH]; intros Hno.
  - change (EmptyString +:+ String sep rest) with (String sep rest).
    cbn [Py.split]. by rewrite Ascii.eqb_refl.
  - rewrite contains_char_cons in Hno.
    apply orb_false_iff in Hno as [Hc Hno].
    change (String c owner +:+ String sep rest)
      with (String c (owner +:+ String sep rest)).
    cbn [Py.split]. rewrite Hc.
    specialize (IH Hno).
    destruct (Py.split sep (owner +:+ String sep rest)) as [|p ps];
      [done|].
    by injection IH as ->.
Qed.

Lemma contains_char_app c owner rest :
  Py.contains (String c EmptyString) (owner +:+ String c rest) = true.
Proof.
  induction owner as [|d owner IH].
  - change (EmptyString +:+ String c rest) with (String c rest).
    by rewrite contains_char_cons, Ascii.eqb_refl.
  - change (String d owner +:+ String c rest)
      with (String d (owner +:+ String c rest)).
    rewrite contains_char_cons, IH. apply orb_true_r.
Qed.

(** X15: the author derived from a source repository never has a slash
    in it. *)
Theorem extract_author_no_slash source_repo :
  Py.contains "/" (Parser._extract_author source_repo) = false.
Proof.
  unfold Parser._extract_author.
  destruct (Py.contains "/" source_repo) eqn:Hslash; [|done].
  apply (head_split_no_separator "/"%char).
Qed.

(** X16: for a repository written owner/name, the author is the owner,
    the part before the first slash. *)
Theorem extract_author_owner owner rest :
  Py.contains "/" owner = false →
  Parser._extract_author (owner +:+ "/" +:+ rest) = owner.
Proof.
  intros Hno. unfold Parser._extract_author.
  change ("/" +:+ rest) with (String "/"%char rest).
  rewrite (contains_char_app "/"%char).
  by rewrite (head_split_owner "/"%char).
Qed.

Lemma extract_author_owner_witness :
  Parser._extract_author ("enescingoz" +:+ "/" +:+ "awesome-n8n-templates")
  = "enescingoz".
Proof.
  apply (extract_author_owner "enescingoz" "awesome-n8n-templates").
  by vm_compute.
Defined.

Lemma length_substring_0 m s :
  String.length (String.substring 0 m s) = Nat.min m (String.length s).
Proof.
  revert s. induction m as [|m IH]; intros [|c s]; simpl; try done.
  by rewrite IH.
Qed.

(** X17: when the document has no description of its own, a description
    is taken from a sticky note only: it is the first 500 characters of
    the content of a node of type n8n-nodes-base.stickyNote, and that
    content is longer than 20 characters. *)
Theorem description_from_sticky_note workflow_data text :
  Parser.doc_description workflow_data = None →
  Parser._extract_description workflow_data = Some text →
  20 < String.length text ≤ 500 ∧
  ∃ node content,
    node ∈ Parser.doc_nodes workflow_data ∧
    Parser.type node = Some Parser.stickyNote ∧
    Parser.content node = Some content ∧
    20 < String.length content ∧
    text = String.substring 0 500 content.
Proof.
  intros Hnone. unfold Parser._extract_description. rewrite Hnone.
  destruct (list_find _ _) as [[i node]|] eqn:Hfind; [|done].
  apply list_find_Some in Hfind as (Hi & _ & _).
  cbn [mbind option_bind snd].
  case_bool_decide as Htype; [|done].
  destruct (20 <? String.length _)%nat eqn:Hlen; [|done].
  apply Nat.ltb_lt in Hlen. intros [= <-].
  rewrite length_substring_0. split; [lia|].
  destruct (Parser.content node) as [content|] eqn:Hcontent;
    [|cbn in Hlen; lia].
  exists node, content. split_and!; try done.
  by eapply list_elem_of_lookup_2.
Qed.

Lemma description_from_sticky_note_witness :
  20 < String.length "Sends the weekly report to the sales team" ≤ 500 ∧
  ∃ node content,
    node ∈ Parser.doc_nodes noted_document ∧
    Parser.type node = Some Parser.stickyNote ∧
    Parser.content node = Some content ∧
    20 < String.length content ∧
    "Sends the weekly report to the sales team"
      = String.substring 0 500 content.
Proof.
  apply (description_from_sticky_note noted_document);
    by vm_compute.
Defined.

(** A description the document states is returned as it is, null
    included, and sticky notes are not looked at. *)
Lemma description_stated_wins workflow_data stated :
  Parser.doc_description workflow_data = Some stated →
  Parser._extract_description workflow_data = stated.
Proof. intros Hd. unfold Parser._extract_description. by rewrite Hd. Qed.

(** What a call consumes.  A file that cannot be read gives no
    record, and neither an identifier is drawn nor the clock read.  A
    file that holds JSON the parser cannot work on gives no record
    either, but the identifier drawn before the failure is spent.  A
    document gives a record with the next identifier; the call reads
    the clock twice. *)
Lemma parse_workflow_outcome files json_path source_repo env :
  match files (Parser.path_str json_path) with
  | Parser.Unreadable =>
      Parser.parse_workflow files json_path source_repo env = (None, env)
  | Parser.Malformed =>
      ∃ env',
        Parser.parse_workflow files json_path source_repo env = (None, env') ∧
        Sys.uuids_drawn env' = S (Sys.uuids_drawn env) ∧
        Sys.clock_reads env' = Sys.clock_reads env
  | Parser.Document workflow_data =>
      ∃ workflow env',
        Parser.parse_workflow files json_path source_repo env
          = (Some workflow, env') ∧
        Parser.id workflow = Sys.uuids env (Sys.uuids_drawn env) ∧
        Sys.uuids_drawn env' = S (Sys.uuids_drawn env) ∧
        Sys.clock_reads env' = S (S (Sys.clock_reads env)) ∧
        Parser.name workflow
          = default (Parser.stem json_path) (Parser.doc_name workflow_data) ∧
        Parser.source_url workflow = None ∧
        Parser.stats workflow
          = {| Parser.popularity_score := 0; Parser.import_count := 0;
               Parser.success_rate := 0%float;
               Parser.avg_setup_time := None |}
  end.
Proof.
  unfold Parser.parse_workflow.
  destruct (files _) as [| |workflow_data]; [done|by eexists|].
  unfold Sys.uuid4, Sys.utcnow.
  cbn [Sys.clock Sys.clock_reads Sys.uuids Sys.uuids_drawn].
  destruct (Parser._categorize_workflow _ _ _) as [category subcategory].
  eexists _, _. split; [reflexivity|]. done.
Qed.

(** X19: a document without nodes is parsed like any other: the record
    has node count 0, difficulty beginner, no integrations, node types,
    credentials, services or external APIs, both flags off, and is
    fully compatible with score 0.8. *)
Theorem parse_workflow_zero_nodes
    files json_path source_repo env workflow_data :
  files (Parser.path_str json_path) = Parser.Document workflow_data →
  Parser.doc_nodes workflow_data = [] →
  ∃ workflow env',
    Parser.parse_workflow files json_path source_repo env
      = (Some workflow, env') ∧
    Parser.metadata workflow
      = {| Parser.node_count := 0;
           Parser.meta_integrations := [];
           Parser.meta_node_types := [];
           Parser.meta_has_webhook := false;
           Parser.meta_has_schedule := false;
           Parser.estimated_runtime := Some "< 1 minute" |} ∧
    Parser.difficulty workflow = Parser.beginner ∧
    Parser.requirements workflow
      = {| Parser.credentials := []; Parser.services := [];
           Parser.external_apis := [];
           Parser.min_n8n_version := "1.0.0" |} ∧
    Parser.compatibility workflow
      = {| Parser.local_ai := false;
           Parser.requires_external_api := false;
           Parser.works_offline := true;
           Parser.pozi_compatible := true;
           Parser.status := Parser.fully_compatible;
           Parser.compatibility_score := 0.8%float |}.
Proof.
  intros Hfile Hnodes. unfold Parser.parse_workflow. rewrite Hfile, Hnodes.
  unfold Sys.uuid4, Sys.utcnow.
  cbn [Sys.clock Sys.clock_reads Sys.uuids Sys.uuids_drawn].
  destruct (Parser._categorize_workflow _ _ _) as [category subcategory].
  eexists _, _. split; [reflexivity|].
  cbn [Parser.metadata Parser.difficulty Parser.requirements
       Parser.compatibility].
  split_and!; by vm_compute.
Qed.

Lemma parse_workflow_zero_nodes_witness :
  ∃ workflow env',
    Parser.parse_workflow (λ _, Parser.Document empty_document)
                          digest_path "Zie619/n8n-workflows" ticking_env
      = (Some workflow, env') ∧
    Parser.metadata workflow
      = {| Parser.node_count := 0;
           Parser.meta_integrations := [];
           Parser.meta_node_types := [];
           Parser.meta_has_webhook := false;
           Parser.meta_has_schedule := false;
           Parser.estimated_runtime := Some "< 1 minute" |} ∧
    Parser.difficulty workflow = Parser.beginner ∧
    Parser.requirements workflow
      = {| Parser.credentials := []; Parser.services := [];
           Parser.external_apis := [];
           Parser.min_n8n_version := "1.0.0" |} ∧
    Parser.compatibility workflow
      = {| Parser.local_ai := false;
           Parser.requires_external_api := false;
           Parser.works_offline := true;
           Parser.pozi_compatible := true;
           Parser.status := Parser.fully_compatible;
           Parser.compatibility_score := 0.8%float |}.
Proof.
  apply (parse_workflow_zero_nodes (λ _, Parser.Document empty_document)
           digest_path "Zie619/n8n-workflows" ticking_env empty_document);
    reflexivity.
Defined.

End builder_extras.

(** * Further properties of the store *)

(** ** Insert, lookup and the primary key *)

Section store_key_extras.

Implicit Types (db : Database.Db) (rows : list (Z * Database.Row)).

Lemma has_id_get db workflow_id :
  Database.has_id db workflow_id = true ↔
  is_Some (Database.get_workflow db workflow_id).
Proof.
  unfold Database.has_id, Database.get_workflow.
  induction (Database.workflows db) as [|r rows IH]; simpl.
  - split; [done|]. by intros [? ?].
  - destruct (String.eqb _ _); simpl; [|done].
    split; [|done]. intros _. by eexists.
Qed.

Lemma find_app_other rows (r : Z * Database.Row) (f : Z * Database.Row → bool) :
  f r = false → List.find f (rows ++ [r]) = List.find f rows.
Proof.
  intros Hr. induction rows as [|r' rows IH]; simpl.
  - by rewrite Hr.
  - by destruct (f r').
Qed.

Lemma rowid_below_next db r :
  r ∈ Database.workflows db → (r.1 < Database.next_rowid db)%Z.
Proof.
  unfold Database.next_rowid.
  induction (Database.workflows db) as [|r' rows IH].
  - by intros ?%elem_of_nil.
  - rewrite fmap_cons. cbn [foldr].
    intros [->|Hin]%elem_of_cons; [lia|]. specialize (IH Hin). lia.
Qed.

Lemma insert_keeps_unique db workflow :
  Database.unique_ids db →
  Database.unique_ids (Database.insert_workflow db workflow).1.
Proof.
  intros [Hids Hrowids]. unfold Database.insert_workflow.
  destruct (Database.storable _); [|done]. cbn [negb].
  destruct (Database.has_id _ _) eqn:Hid; [done|].
  unfold Database.unique_ids. cbn [fst Database.workflows].
  rewrite !fmap_app. cbn [fmap list_fmap fst snd].
  split; apply NoDup_app; split_and!; try done; try apply NoDup_singleton.
  - intros x Hx ->%list_elem_of_singleton.
    apply list_elem_of_fmap in Hx as (r & Heq & Hr).
    assert (Database.has_id db (Parser.id workflow) = true) as Hyes;
      [|congruence].
    unfold Database.has_id. apply existsb_exists. exists r.
    split; [by apply list_elem_of_In|].
    apply String.eqb_eq. cbn in Heq. congruence.
  - intros x Hx ->%list_elem_of_singleton.
    apply list_elem_of_fmap in Hx as (r & Heq & Hr).
    apply rowid_below_next in Hr. lia.
Qed.

Lemma update_keeps_keys db workflow_id import_count success_rate env :
  let db' :=
    Database.store
      (Database.update_workflow_stats db workflow_id import_count
                                      success_rate env) in
  (λ r, Database.id r.2) <$> Database.workflows db'
    = (λ r, Database.id r.2) <$> Database.workflows db ∧
  fst <$> Database.workflows db' = fst <$> Database.workflows db.
Proof.
  cbv zeta. unfold Database.update_workflow_stats, Sys.utcnow.
  destruct import_count as [n|], success_rate;
    try destruct (Database.bindable (Some n));
    cbn [negb Database.bindable Database.store Database.workflows];
    try done;
    rewrite <-!list_fmap_compose;
    (split; apply list_fmap_ext; intros i r _; cbn;
     by destruct (String.eqb _ _)).
Qed.

Lemma update_keeps_unique db workflow_id import_count success_rate env :
  Database.unique_ids db →
  Database.unique_ids
    (Database.store
       (Database.update_workflow_stats db workflow_id import_count
                                       success_rate env)).
Proof.
  unfold Database.unique_ids.
  destruct (update_keeps_keys db workflow_id import_count success_rate env)
    as [-> ->]. done.
Qed.

(** X20: inserting a record whose id is already stored fails: the call
    returns False and the store is left as it was, the earlier row
    included. *)
Theorem insert_existing_id db workflow row :
  Database.get_workflow db (Parser.id workflow) = Some row →
  Database.insert_workflow db workflow = (db, false).
Proof.
  intros Hrow. unfold Database.insert_workflow.
  destruct (Database.storable _); [|done]. cbn [negb].
  assert (Database.has_id db (Parser.id workflow) = true) as ->; [|done].
  apply has_id_get. by eexists.
Qed.

Lemma insert_existing_id_witness :
  Database.insert_workflow digest_db digest_record = (digest_db, false).
Proof.
  apply (insert_existing_id digest_db digest_record
                            (Database.row_of_workflow digest_record)).
  by vm_compute.
Defined.

(** X21: for a record whose id is not stored yet, the insert succeeds
    exactly when the record's three integers (node count, popularity
    score, import count) are 64-bit signed integers.  When they are,
    the call returns True, the count is one higher, and the result of a
    lookup of every other id is as it was.  When one of them is not,
    the call returns False and the store is left as it was. *)
Theorem insert_fresh_id db workflow :
  Database.get_workflow db (Parser.id workflow) = None →
  let in_range :=
    ((- 2 ^ 63 ≤ Z.of_nat (Parser.node_count (Parser.metadata workflow))
        < 2 ^ 63) ∧
     (- 2 ^ 63 ≤ Parser.popularity_score (Parser.stats workflow) < 2 ^ 63) ∧
     (- 2 ^ 63 ≤ Parser.import_count (Parser.stats workflow) < 2 ^ 63))%Z in
  (in_range →
   ∃ db',
     Database.insert_workflow db workflow = (db', true) ∧
     Database.get_workflow_count db' = S (Database.get_workflow_count db) ∧
     ∀ other, other ≠ Parser.id workflow →
              Database.get_workflow db' other
              = Database.get_workflow db other) ∧
  (¬ in_range → Database.insert_workflow db workflow = (db, false)).
Proof.
  intros Hnone in_range. subst in_range. rewrite <-storable_spec.
  unfold Database.insert_workflow.
  destruct (Database.storable workflow); cbn [negb]; (split; [|done]);
    [|done].
  intros _.
  destruct (Database.has_id _ _) eqn:Hid.
  { apply has_id_get in Hid as [row Hrow]. congruence. }
  eexists. split; [done|].
  unfold Database.get_workflow_count, Database.get_workflow.
  cbn [Database.workflows]. split.
  - rewrite length_app. simpl. lia.
  - intros other Hother. rewrite find_app_other; [done|].
    cbn. apply String.eqb_neq. congruence.
Qed.

Lemma insert_fresh_id_witness :
  Database.get_workflow digest_db (Parser.id report_record) = None ∧
  (∃ db',
     Database.insert_workflow digest_db report_record = (db', true) ∧
     Database.get_workflow_count db' = 2 ∧
     Database.get_workflow db' (Parser.id digest_record)
     = Database.get_workflow digest_db (Parser.id digest_record)) ∧
  Database.insert_workflow digest_db
    (with_popularity_score (2 ^ 63) report_record)
  = (digest_db, false).
Proof.
  assert (Database.get_workflow digest_db (Parser.id report_record) = None)
    as Hnone by (by vm_compute).
  split; [done|]. split.
  - destruct (insert_fresh_id digest_db report_record Hnone) as [Hfits _].
    destruct Hfits as (db' & Hinsert & Hcount & Hothers).
    { cbn. lia. }
    exists db'. split_and!; [done|done|].
    apply Hothers. by vm_compute.
  - apply (insert_fresh_id digest_db
             (with_popularity_score (2 ^ 63) report_record)); [done|].
    cbn. lia.
Defined.

(** X22: whatever inserts and statistics updates a store has seen since
    it was created, no two of its rows have the same id, and no two the
    same rowid. *)
Theorem ids_stay_unique ops env :
  Database.unique_ids (Database.after ops env).1.
Proof.
  unfold Database.after.
  assert (Database.unique_ids (Database.init_db None, env).1) as Hinit.
  { split; constructor. }
  revert Hinit. generalize (Database.init_db None, env).
  induction ops as [|op ops IH]; intros state Hstate; simpl; [done|].
  apply IH. destruct op as [workflow|workflow_id import_count success_rate];
    cbn [Database.apply_operation fst].
  - by apply insert_keeps_unique.
  - by apply update_keeps_unique.
Qed.

End store_key_extras.

(** ** Search *)

Section search_extras.

Variable fts_match : string → Database.Row → bool.

Implicit Types (db : Database.Db) (r : Database.Row).

Lemma ranks_before_total : Total (λ r1 r2, Is_true (Database.ranks_before r1 r2)).
Proof.
  intros r1 r2. unfold Database.ranks_before.
  destruct (Z.lt_trichotomy (Database.popularity_score r1)
                            (Database.popularity_score r2)) as [Hlt|[Heq|Hgt]].
  - right. apply Is_true_true, orb_true_iff. left. by apply Z.ltb_lt.
  - destruct (String.leb_total (Database.name r1) (Database.name r2))
      as [Hle|Hle]; [left|right];
      apply Is_true_true, orb_true_iff; right; rewrite Hle, andb_true_r;
      apply Z.eqb_eq; lia.
  - left. apply Is_true_true, orb_true_iff. left. by apply Z.ltb_lt.
Qed.

Lemma ranks_before_trans :
  Transitive (λ r1 r2, Is_true (Database.ranks_before r1 r2)).
Proof.
  intros r1 r2 r3. unfold Database.ranks_before.
  rewrite !Is_true_true, !orb_true_iff, !andb_true_iff, !Z.ltb_lt, !Z.eqb_eq.
  intros [H12|[H12 Hn12]] [H23|[H23 Hn23]]; try (left; lia).
  right. split; [lia|].
  apply Is_true_true.
  change (String.le (Database.name r1) (Database.name r3)).
  trans (Database.name r2); by apply Is_true_true.
Qed.

Lemma StronglySorted_drop {A} (R : relation A) n (l : list A) :
  StronglySorted R l → StronglySorted R (drop n l).
Proof.
  intros Hl. revert n. induction Hl as [|x l Hl IH Hx]; intros [|n]; simpl;
    try by constructor.
  apply IH.
Qed.


Lemma search_unfold db query category difficulty local_ai_only tags
    limit offset :
  Database.search_workflows fts_match db query category difficulty
                            local_ai_only tags limit offset
  = Sql.limit_offset limit offset
      (Database.search_workflows fts_match db query category difficulty
                                 local_ai_only tags (-1) 0).
Proof. unfold Database.search_workflows, Sql.limit_offset. by simpl. Qed.


(** X23: a search with a limit of zero or more returns at most that
    many rows, and the rows come ordered by falling popularity score,
    rows of equal score by rising name. *)
Theorem search_bounded_ordered
    db query category difficulty local_ai_only tags limit offset :
  let found :=
    Database.search_workflows fts_match db query category difficulty
                              local_ai_only tags limit offset in
  ((0 ≤ limit)%Z → length found ≤ Z.to_nat limit) ∧
  StronglySorted (λ r1 r2, Is_true (Database.ranks_before r1 r2)) found.
Proof.
  unfold Database.search_workflows, Sql.limit_offset. split.
  - intros Hlimit. destruct (limit <? 0)%Z eqn:Hneg; [lia|].
    rewrite length_take. lia.
  - assert (StronglySorted (λ r1 r2, Is_true (Database.ranks_before r1 r2))
              (merge_sort Database.ranks_before
                 (List.filter
                    (λ r, forallb (λ condition, condition r)
                       (Database.conditions fts_match query category
                          difficulty local_ai_only tags))
                    (snd <$> Database.workflows db)))) as Hsorted.
    { apply StronglySorted_merge_sort;
        [apply ranks_before_trans|apply ranks_before_total]. }
    destruct (limit <? 0)%Z.
    + by apply StronglySorted_drop.
    + by apply StronglySorted_take, StronglySorted_drop.
Qed.


End search_extras.

Lemma search_bounded_ordered_witness :
  length (Database.search_workflows (λ _ _, false) two_row_db
            None None None false [] 1 0) ≤ Z.to_nat 1.
Proof.
  apply (proj1 (search_bounded_ordered (λ _ _, false) two_row_db
                  None None None false [] 1 0)).
  lia.
Defined.


(** ** Paging *)

Section paging_extras.

Variable fts_match : string → Database.Row → bool.

(** X25: the pages of a listing tile the ordered result: for a page
    size of at least one, the rows of pages 1 to k, one after the other,
    are the first k times page-size rows of the whole ordered result, so
    no row is left out or given twice. *)
Theorem pages_tile_result
    db query category difficulty local_ai_only tags (page_size : Z) (k : nat) :
  (1 ≤ page_size)%Z →
  concat ((λ page : nat,
             Api.page_rows fts_match db query category difficulty
                           local_ai_only tags (Z.of_nat page + 1) page_size)
          <$> seq 0 k)
  = Database.search_workflows fts_match db query category difficulty
                              local_ai_only tags
                              (Z.of_nat k * page_size) 0.
Proof.
  intros Hsize. unfold Api.page_rows, Api.page_offset.
  rewrite (search_unfold _ _ _ _ _ _ _ (Z.of_nat k * page_size)).
  assert (∀ page : nat,
            Database.search_workflows fts_match db query category difficulty
              local_ai_only tags page_size
              ((Z.of_nat page + 1 - 1) * page_size)
            = take (Z.to_nat page_size)
                (drop (page * Z.to_nat page_size)
                   (Database.search_workflows fts_match db query category
                      difficulty local_ai_only tags (-1) 0))) as Hpage.
  { intros page. rewrite search_unfold. unfold Sql.limit_offset.
    destruct (page_size <? 0)%Z eqn:Hneg; [lia|].
    do 2 f_equal. lia. }
  generalize dependent
    (Database.search_workflows fts_match db query category difficulty
       local_ai_only tags (-1) 0).
  intros full Hpage. unfold Sql.limit_offset.
  destruct (Z.of_nat k * page_size <? 0)%Z eqn:Hneg;
    [apply Z.ltb_lt in Hneg; nia|].
  change (Z.to_nat 0) with 0%nat. rewrite drop_0.
  rewrite Z2Nat.inj_mul, Nat2Z.id by lia.
  clear Hneg. induction k as [|k IH]; [done|].
  rewrite seq_S, fmap_app, concat_app, IH. cbn [fmap list_fmap concat].
  rewrite app_nil_r, Hpage, take_take_drop. f_equal. lia.
Qed.

End paging_extras.

Lemma pages_tile_result_witness :
  concat ((λ page : nat,
             Api.page_rows (λ _ _, false) two_row_db None None None false []
                           (Z.of_nat page + 1) 1)
          <$> seq 0 2)
  = Database.search_workflows (λ _ _, false) two_row_db None None None false
                              [] (Z.of_nat 2 * 1) 0.
Proof.
  apply (pages_tile_result (λ _ _, false) two_row_db None None None false
                           [] 1 2).
  lia.
Defined.

(** ** Statistics updates *)

Section update_extras.

Implicit Types (db : Database.Db) (rows : list (Z * Database.Row)).

Lemma find_fmap_keep (f : Z * Database.Row → bool)
    (g : Z * Database.Row → Z * Database.Row) rows :
  (∀ r, f (g r) = f r) →
  List.find f (g <$> rows) = g <$> List.find f rows.
Proof.
  intros Hkeep. induction rows as [|r rows IH]; [done|].
  rewrite fmap_cons. cbn [List.find]. rewrite Hkeep.
  by destruct (f r).
Qed.

Lemma update_row_keeps_id workflow_id import_count success_rate now
    (r : Z * Database.Row) other :
  String.eqb
    (Database.id
       (if String.eqb (Database.id r.2) workflow_id
        then (r.1, Database.set_stats import_count success_rate now r.2)
        else r).2) other
  = String.eqb (Database.id r.2) other.
Proof. by destruct (String.eqb (Database.id r.2) workflow_id). Qed.

Lemma set_stats_other_columns import_count success_rate updated_at r column :
  column ∉ stats_columns →
  Value.get column
    (Database.row_dict
       (Database.set_stats import_count success_rate updated_at r))
  = Value.get column (Database.row_dict r).
Proof.
  intros Hcolumn. unfold Database.row_dict. cbn [Value.get].
  repeat match goal with
         | |- context [String.eqb ?a column] =>
             destruct (String.eqb_spec a column) as [<-|?]
         end;
    try done; exfalso; apply Hcolumn; unfold stats_columns; set_solver.
Qed.

(** What a call that can bind its parameters leaves behind. *)
Lemma update_workflow_stats_bound
    db workflow_id import_count success_rate env :
  is_Some import_count ∨ is_Some success_rate →
  Database.bindable import_count = true →
  Database.update_workflow_stats db workflow_id import_count success_rate env
  = {| Database.outcome := Database.Returned;
       Database.store :=
         {| Database.workflows :=
              (λ r : Z * Database.Row,
                 if String.eqb (Database.id r.2) workflow_id
                 then (r.1,
                       Database.set_stats import_count success_rate
                         (Sys.isoformat (Sys.clock env (Sys.clock_reads env)))
                         r.2)
                 else r) <$> Database.workflows db |};
       Database.world := (Sys.utcnow env).2 |}.
Proof.
  intros Hgiven Hbind. unfold Database.update_workflow_stats, Sys.utcnow.
  destruct import_count, success_rate; rewrite ?Hbind; try reflexivity.
  destruct Hgiven as [[? [=]]|[? [=]]].
Qed.

(** What a call that cannot bind its parameters leaves behind. *)
Lemma update_workflow_stats_unbound
    db workflow_id import_count success_rate env :
  Database.bindable import_count = false →
  Database.update_workflow_stats db workflow_id import_count success_rate env
  = {| Database.outcome := Database.Raised Database.OverflowError;
       Database.store := db;
       Database.world := (Sys.utcnow env).2 |}.
Proof.
  intros Hbind. unfold Database.update_workflow_stats, Sys.utcnow.
  destruct import_count, success_rate; rewrite ?Hbind; try reflexivity.
  discriminate Hbind.
Qed.

(** X26: a statistics update of a stored id, with at least one of the
    two statistics given.  When [import_count] is absent or a 64-bit
    signed integer, the call returns and rewrites the row: an
    [import_count] given is stored, a [success_rate] given is stored
    as the REAL column holds it (NaN as NULL, read back as [None]; a
    zero without its sign; any other float as it is), a statistic not
    given keeps its value, updated_at becomes the clock's reading, and
    no other column changes; the rows of all other ids and the number
    of rows stay as they were.  When [import_count] is an integer
    outside this range, the call raises [OverflowError] and the store
    is left as it was. *)
Theorem update_stats_existing
    db workflow_id import_count success_rate env row :
  Database.get_workflow db workflow_id = Some row →
  is_Some import_count ∨ is_Some success_rate →
  let updated :=
    Database.update_workflow_stats db workflow_id import_count success_rate
                                   env in
  ((∀ n, import_count = Some n → - 2 ^ 63 ≤ n < 2 ^ 63)%Z →
   Database.outcome updated = Database.Returned ∧
   ∃ row',
     Database.get_workflow (Database.store updated) workflow_id
       = Some row' ∧
     Database.import_count row'
       = default (Database.import_count row) import_count ∧
     Database.success_rate row'
       = match success_rate with
         | Some rate =>
             if PrimFloat.is_nan rate then None
             else if PrimFloat.is_zero rate then Some 0.0%float
             else Some rate
         | None => Database.success_rate row
         end ∧
     Database.updated_at row'
       = Sys.isoformat (Sys.clock env (Sys.clock_reads env)) ∧
     (∀ column, column ∉ stats_columns →
        Value.get column (Database.row_dict row')
        = Value.get column (Database.row_dict row)) ∧
     (∀ other, other ≠ workflow_id →
        Database.get_workflow (Database.store updated) other
        = Database.get_workflow db other) ∧
     Database.get_workflow_count (Database.store updated)
     = Database.get_workflow_count db) ∧
  (∀ n, import_count = Some n → ¬ (- 2 ^ 63 ≤ n < 2 ^ 63)%Z →
        Database.outcome updated = Database.Raised Database.OverflowError ∧
        Database.store updated = db).
Proof.
  intros Hrow Hgiven updated. split.
  - intros Hfits.
    assert (Database.bindable import_count = true) as Hbind.
    { destruct import_count as [n|]; [|done].
      apply fits_int64_spec. by apply Hfits. }
    subst updated. rewrite update_workflow_stats_bound by done.
    cbn [Database.outcome Database.store]. split; [reflexivity|].
    set (now := Sys.isoformat (Sys.clock env (Sys.clock_reads env))).
    exists (Database.set_stats import_count success_rate now row).
    unfold Database.get_workflow, Database.get_workflow_count in *.
    cbn [Database.workflows].
    split_and!.
    + rewrite find_fmap_keep by (intros r; apply update_row_keeps_id).
      destruct (List.find _ _) as [[rowid found]|] eqn:Hfind; [|done].
      apply find_some in Hfind as [_ Hid].
      cbn [snd fmap option_fmap option_map] in *.
      injection Hrow as ->. by rewrite Hid.
    + reflexivity.
    + by destruct success_rate.
    + reflexivity.
    + apply set_stats_other_columns.
    + intros other Hother. clear Hrow.
      rewrite find_fmap_keep by (intros r; apply update_row_keeps_id).
      destruct (List.find _ _) as [[rowid found]|] eqn:Hfind; [|done].
      apply find_some in Hfind as [_ Hid]. cbn [snd] in Hid.
      apply String.eqb_eq in Hid. cbn [snd fmap option_fmap option_map].
      destruct (String.eqb_spec (Database.id found) workflow_id); [|done].
      congruence.
    + by rewrite length_fmap.
  - intros n -> Hout. subst updated.
    rewrite update_workflow_stats_unbound; [done|].
    cbn [Database.bindable]. apply not_true_is_false.
    by rewrite fits_int64_spec.
Qed.

End update_extras.

Lemma update_stats_existing_witness :
  let updated :=
    Database.update_workflow_stats two_row_db (Parser.id digest_record)
                                   (Some 5%Z) (Some PrimFloat.nan)
                                   ticking_env in
  Database.outcome updated = Database.Returned ∧
  ∃ row',
    Database.get_workflow (Database.store updated) (Parser.id digest_record)
      = Some row' ∧
    Database.import_count row' = 5%Z ∧
    Database.success_rate row' = None ∧
    Database.updated_at row' = "2024-05-17T09:30:12.480215" ∧
    Database.get_workflow (Database.store updated) (Parser.id report_record)
      = Some (Database.row_of_workflow report_record).
Proof.
  intros updated.
  destruct (update_stats_existing two_row_db (Parser.id digest_record)
              (Some 5%Z) (Some PrimFloat.nan) ticking_env
              (Database.row_of_workflow digest_record)) as [Hreturns _].
  { by vm_compute. }
  { left. by eexists. }
  destruct Hreturns
    as (Houtcome & row' & Hget & Hcount & Hrate & Hstamp & _ & Hothers & _).
  { intros n [= <-]. lia. }
  split; [exact Houtcome|]. exists row'.
  split_and!; [exact Hget|exact Hcount|exact Hrate|exact Hstamp|].
  rewrite Hothers; [|by vm_compute]. by vm_compute.
Defined.

(** ** Categories *)

Section categories_extras.

Implicit Types (db : Database.Db).

Lemma sum_list_with_fmap {A B} (f : B → nat) (g : A → B) (l : list A) :
  sum_list_with f (g <$> l) = sum_list_with (f ∘ g) l.
Proof.
  induction l as [|x l IH]; [done|].
  change (f (g x) + sum_list_with f (g <$> l)
          = f (g x) + sum_list_with (f ∘ g) l).
  by rewrite IH.
Qed.

Lemma sum_list_with_plus {A} (f g : A → nat) (l : list A) :
  sum_list_with (λ x, f x + g x) l = sum_list_with f l + sum_list_with g l.
Proof.
  induction l as [|x l IH]; [done|].
  change (f x + g x + sum_list_with (λ x, f x + g x) l
          = f x + sum_list_with f l + (g x + sum_list_with g l)).
  rewrite IH. lia.
Qed.

Lemma sum_list_with_cons {A} (f : A → nat) x (l : list A) :
  sum_list_with f (x :: l) = f x + sum_list_with f l.
Proof. done. Qed.

Lemma sum_indicator_absent (k : string) (ks : list string) :
  k ∉ ks → sum_list_with (λ k', if decide (k = k') then 1 else 0) ks = 0.
Proof.
  induction ks as [|k' ks IH]; [done|].
  intros [Hne Hnot]%not_elem_of_cons.
  rewrite sum_list_with_cons, decide_False by done. by apply IH.
Qed.

Lemma sum_indicator (k : string) (ks : list string) :
  NoDup ks → k ∈ ks →
  sum_list_with (λ k', if decide (k = k') then 1 else 0) ks = 1.
Proof.
  induction 1 as [|k' ks Hnot Hnodup IH]; [by intros ?%elem_of_nil|].
  rewrite sum_list_with_cons. intros [->|Hin]%elem_of_cons.
  - rewrite decide_True by done. by rewrite sum_indicator_absent.
  - rewrite decide_False by (intros ->; done). by apply IH.
Qed.

Lemma sum_counts {A} (key : A → string) (ks : list string) (l : list A) :
  NoDup ks → (∀ x, x ∈ l → key x ∈ ks) →
  sum_list_with (λ k, length (filter (λ x, key x = k) l)) ks = length l.
Proof.
  intros Hnodup. induction l as [|x l IH]; intros Hkeys.
  - clear. induction ks as [|k ks IHks]; [done|].
    by rewrite sum_list_with_cons, IHks.
  - assert (sum_list_with (λ k, length (filter (λ x, key x = k) (x :: l))) ks
            = sum_list_with
                (λ k, (if decide (key x = k) then 1 else 0)
                      + length (filter (λ x, key x = k) l)) ks) as ->.
    { clear. induction ks as [|k ks IHks]; [done|].
      rewrite !sum_list_with_cons, IHks. f_equal.
      rewrite filter_cons. by case_decide. }
    rewrite sum_list_with_plus, sum_indicator, IH; [done|..].
    + intros y Hy. apply Hkeys. by right.
    + done.
    + apply Hkeys. by left.
Qed.

(** X27: the category listing has one entry per category that occurs,
    in ascending order of the category and none twice; an entry's count
    is the number of stored rows with that category, at least one; and
    the counts add up to the number of stored rows. *)
Theorem get_categories_counts db :
  let listing := Database.get_categories db in
  (StronglySorted String.le (fst <$> listing) ∧ NoDup (fst <$> listing)) ∧
  (∀ c n, (c, n) ∈ listing ↔
          1 ≤ n ∧
          n = length (filter (λ r, Database.category r = c)
                             (snd <$> Database.workflows db))) ∧
  sum_list_with snd listing = Database.get_workflow_count db.
Proof.
  unfold Database.get_categories. cbv zeta.
  set (rows := snd <$> Database.workflows db).
  assert (∀ c, c ∈ Py.sorted (list_to_set (Database.category <$> rows))
               ↔ ∃ r, r ∈ rows ∧ Database.category r = c) as Hcats.
  { intros c. rewrite elem_of_sorted, elem_of_list_to_set, list_elem_of_fmap.
    naive_solver. }
  split_and!.
  - rewrite <-list_fmap_compose, (list_fmap_ext _ id) by done.
    rewrite list_fmap_id. apply StronglySorted_sorted.
  - rewrite <-list_fmap_compose, (list_fmap_ext _ id) by done.
    rewrite list_fmap_id. apply NoDup_sorted.
  - intros c n. rewrite list_elem_of_fmap. split.
    + intros (c' & [= -> ->] & (r & Hr & Hc)%Hcats). split; [|done].
      assert (r ∈ filter (λ r, Database.category r = c') rows) as Hin
        by by apply list_elem_of_filter.
      destruct (filter _ rows); [by apply elem_of_nil in Hin|simpl; lia].
    + intros [Hpos ->]. exists c. split; [done|]. apply Hcats.
      destruct (filter (λ r, Database.category r = c) rows) as [|r l] eqn:Hf;
        [simpl in Hpos; lia|].
      assert (r ∈ filter (λ r, Database.category r = c) rows) as Hin
        by (rewrite Hf; left).
      apply list_elem_of_filter in Hin as [Hc Hr]. by exists r.
  - rewrite sum_list_with_fmap. unfold Database.get_workflow_count.
    rewrite <-(length_fmap snd (Database.workflows db)). fold rows.
    apply (sum_counts Database.category); [apply NoDup_sorted|].
    intros r Hr. apply Hcats. by exists r.
Qed.

End categories_extras.

(** ** The tag filter on plain tags *)

Section tag_filter_extras.

Lemma string_app_cons c s t : String c s +:+ t = String c (s +:+ t).
Proof. done. Qed.

Lemma string_app_assoc s t u : (s +:+ t) +:+ u = s +:+ (t +:+ u).
Proof.
  induction s as [|c s IH]; [done|]. by rewrite !string_app_cons, IH.
Qed.

Lemma string_app_nil_r s : s +:+ EmptyString = s.
Proof.
  induction s as [|c s IH]; [done|]. by rewrite string_app_cons, IH.
Qed.

Lemma like_percent_intro pattern skipped text :
  Sql.like pattern text = true →
  Sql.like (String "%" pattern) (skipped +:+ text) = true.
Proof.
  intros Hlike. cbn [Sql.like]. rewrite Ascii.eqb_refl.
  induction skipped as [|c skipped IH].
  - change (EmptyString +:+ text) with text.
    destruct text; by rewrite Hlike.
  - rewrite string_app_cons. rewrite IH. apply orb_true_r.
Qed.

Lemma eq_nocase_refl c : Sql.eq_nocase c c = true.
Proof. unfold Sql.eq_nocase. apply N.eqb_refl. Qed.

Lemma like_self_then_any literal rest :
  Sql.like (literal +:+ "%") (literal +:+ rest) = true.
Proof.
  induction literal as [|c literal IH].
  - change (Sql.like (String "%" EmptyString) rest = true).
    rewrite <-(string_app_nil_r rest). by apply like_percent_intro.
  - rewrite !string_app_cons.
    destruct (Ascii.eqb c "%") eqn:Hc.
    + apply Ascii.eqb_eq in Hc as ->.
      apply (like_percent_intro _ (String "%" EmptyString)), IH.
    + cbn [Sql.like]. rewrite Hc, eq_nocase_refl, orb_true_r. apply IH.
Qed.

Lemma concat_has_item sep item (items : list string) :
  item ∈ items →
  ∃ before after, String.concat sep items = before +:+ item +:+ after.
Proof.
  induction items as [|x items IH]; [by intros ?%elem_of_nil|].
  intros [->|Hin]%elem_of_cons.
  - destruct items as [|y items].
    + exists EmptyString, EmptyString. cbn [String.concat].
      change (x = x +:+ EmptyString). by rewrite string_app_nil_r.
    + exists EmptyString, (sep +:+ String.concat sep (y :: items)). done.
  - destruct (IH Hin) as (before & after & Heq).
    destruct items as [|y items]; [by apply elem_of_nil in Hin|].
    exists (x +:+ sep +:+ before), after.
    change (String.concat sep (x :: y :: items))
      with (x +:+ sep +:+ String.concat sep (y :: items)).
    by rewrite Heq, !string_app_assoc.
Qed.

Lemma exact_tag_matches_text tag (tags : list string) :
  tag ∈ tags →
  Json.escape tag = tag →
  Sql.like (Database.tag_pattern tag) (Json.dumps_str_list tags) = true.
Proof.
  intros Hin Hplain.
  destruct (concat_has_item ", " (Json.dumps_str tag) (Json.dumps_str <$> tags))
    as (before & after & Heq); [by apply list_elem_of_fmap_2|].
  unfold Json.dumps_str_list, Json.dumps_array. rewrite Heq.
  unfold Database.tag_pattern, Json.dumps_str. rewrite Hplain.
  change ("%" +:+ String Json.quote (tag +:+ String Json.quote "%"))
    with (String "%"%char
            (String Json.quote (tag +:+ String Json.quote "%"))).
  replace ("[" +:+ (before
             +:+ String Json.quote (tag +:+ String Json.quote EmptyString)
             +:+ after) +:+ "]")
    with (("[" +:+ before)
          +:+ (String Json.quote (tag +:+ String Json.quote EmptyString)
               +:+ (after +:+ "]"))).
  2: { by rewrite !string_app_assoc. }
  apply like_percent_intro.
  replace (String Json.quote (tag +:+ String Json.quote "%"))
    with (String Json.quote (tag +:+ String Json.quote EmptyString) +:+ "%").
  2: { by rewrite string_app_cons, string_app_assoc. }
  apply like_self_then_any.
Qed.

(** X28: a requested tag that is an element of a record's tag list and
    needs no JSON escaping (printable ASCII without the double quote and
    the backslash) passes the tag test on the row stored for the
    record. *)
Theorem exact_tag_passes_filter workflow tag :
  tag ∈ Parser.tags workflow →
  Json.escape tag = tag →
  Sql.like (Database.tag_pattern tag)
           (Database.tags (Database.row_of_workflow workflow)) = true.
Proof. apply exact_tag_matches_text. Qed.

Lemma exact_tag_passes_filter_witness :
  Sql.like (Database.tag_pattern "email")
           (Database.tags (Database.row_of_workflow digest_record)) = true.
Proof.
  apply (exact_tag_passes_filter digest_record "email").
  - vm_compute. repeat constructor.
  - by vm_compute.
Defined.

End tag_filter_extras.

(** ** Decoding the stored lists *)

Section json_extras.

Lemma decode_escaped_char items current c rest :
  Json.decode Json.InString items current (Json.escape_char c +:+ rest)
  = Json.decode Json.InString items (String c current) rest.
Proof. by destruct c as [[] [] [] [] [] [] [] []]. Qed.

Lemma decode_escaped items current t rest :
  Json.decode Json.InString items current (Json.escape t +:+ rest)
  = Json.decode Json.InString items (String.rev_app t current) rest.
Proof.
  revert current. induction t as [|c t IH]; intros current; [done|].
  cbn [Json.escape String.rev_app].
  by rewrite string_app_assoc, decode_escaped_char, IH.
Qed.

Lemma rev_app_rev_app t u v :
  String.rev_app (String.rev_app t u) v = String.rev_app u (t +:+ v).
Proof.
  revert u v. induction t as [|c t IH]; intros u v; [done|].
  cbn [String.rev_app]. by rewrite IH.
Qed.

Lemma decode_item state items current t rest :
  state = Json.AfterOpen ∨ state = Json.AfterComma →
  Json.decode state items current (Json.dumps_str t +:+ rest)
  = Json.decode Json.AfterItem (t :: items) EmptyString rest.
Proof.
  intros Hstate. unfold Json.dumps_str.
  rewrite string_app_cons, string_app_assoc, string_app_cons.
  change (EmptyString +:+ rest) with rest.
  transitivity (Json.decode Json.InString items EmptyString
                  (Json.escape t +:+ String Json.quote rest)).
  { by destruct Hstate as [-> | ->]. }
  rewrite decode_escaped. cbn [Json.decode].
  change (Ascii.eqb Json.quote Json.quote) with true. cbv iota.
  unfold String.rev. by rewrite rev_app_rev_app, string_app_nil_r.
Qed.

Lemma decode_items state items x (l : list string) :
  state = Json.AfterOpen ∨ state = Json.AfterComma →
  Json.decode state items EmptyString
    (String.concat ", " (Json.dumps_str <$> (x :: l)) +:+ "]")
  = Some (reverse items ++ x :: l).
Proof.
  revert state items x. induction l as [|y l IH]; intros state items x Hstate.
  - change (String.concat ", " (Json.dumps_str <$> [x]))
      with (Json.dumps_str x).
    rewrite decode_item by done.
    transitivity (Some (reverse (x :: items))); [done|].
    by rewrite reverse_cons.
  - change (String.concat ", " (Json.dumps_str <$> (x :: y :: l)))
      with (Json.dumps_str x +:+ ", "
            +:+ String.concat ", " (Json.dumps_str <$> (y :: l))).
    rewrite string_app_assoc, decode_item by done.
    rewrite string_app_assoc.
    change (Json.decode Json.AfterItem (x :: items) EmptyString
              (", " +:+ String.concat ", " (Json.dumps_str <$> (y :: l))
               +:+ "]"))
      with (Json.decode Json.AfterComma (x :: items) EmptyString
              (String.concat ", " (Json.dumps_str <$> (y :: l)) +:+ "]")).
    rewrite IH by by right.
    by rewrite reverse_cons, <-app_assoc.
Qed.

Lemma loads_dumps (l : list string) :
  Json.loads_str_list (Json.dumps_str_list l) = Some l.
Proof.
  destruct l as [|x l]; [done|].
  unfold Json.loads_str_list, Json.dumps_str_list, Json.dumps_array.
  change (Json.decode Json.BeforeArray [] EmptyString
            ("[" +:+ String.concat ", " (Json.dumps_str <$> (x :: l)) +:+ "]"))
    with (Json.decode Json.AfterOpen [] EmptyString
            (String.concat ", " (Json.dumps_str <$> (x :: l)) +:+ "]")).
  rewrite decode_items by by left. done.
Qed.

(** X29: the six columns that hold a list of strings decode to the
    lists of the record that was stored: reading tags, use_cases,
    integrations, node_types, services and external_apis of its row
    with json.loads gives the record's lists back, whatever characters
    the strings hold. *)
Theorem stored_lists_decode workflow :
  let row := Database.row_of_workflow workflow in
  Json.loads_str_list (Database.tags row) = Some (Parser.tags workflow) ∧
  Json.loads_str_list (Database.use_cases row)
    = Some (Parser.use_cases workflow) ∧
  Json.loads_str_list (Database.integrations row)
    = Some (Parser.meta_integrations (Parser.metadata workflow)) ∧
  Json.loads_str_list (Database.node_types row)
    = Some (Parser.meta_node_types (Parser.metadata workflow)) ∧
  Json.loads_str_list (Database.services row)
    = Some (Parser.services (Parser.requirements workflow)) ∧
  Json.loads_str_list (Database.external_apis row)
    = Some (Parser.external_apis (Parser.requirements workflow)).
Proof. cbv zeta. split_and!; apply loads_dumps. Qed.

End json_extras.

(** * Properties of the ingestion summary *)

Section summary_extras.

Implicit Types (workflows : list Parser.Workflow) (t : Ingestion.Tally).

Lemma count_up_lookup key counts c :
  default 0 (Ingestion.count_up key counts !! c)
  = default 0 (counts !! c) + (if decide (key = c) then 1 else 0).
Proof.
  unfold Ingestion.count_up. case_decide as Hkey.
  - subst. by rewrite lookup_insert_eq.
  - rewrite lookup_insert_ne by done. lia.
Qed.

Lemma tally_counts (key : Parser.Workflow → string)
    (field : Ingestion.Tally → gmap string nat) workflows t c :
  (∀ t wf, field (Ingestion.tally_step t wf)
           = Ingestion.count_up (key wf) (field t)) →
  default 0 (field (foldl Ingestion.tally_step t workflows) !! c)
  = default 0 (field t !! c)
    + length (filter (λ wf, key wf = c) workflows).
Proof.
  intros Hstep. revert t. induction workflows as [|wf l IH]; intros t.
  - simpl. lia.
  - cbn [foldl]. rewrite IH, Hstep, count_up_lookup, filter_cons.
    case_decide; simpl; lia.
Qed.

Lemma tally_local_ai_loop workflows t :
  Ingestion.tally_local_ai (foldl Ingestion.tally_step t workflows)
  = Ingestion.tally_local_ai t
    + length (filter (λ wf, Parser.local_ai (Parser.compatibility wf) = true)
                     workflows).
Proof.
  revert t. induction workflows as [|wf l IH]; intros t.
  - simpl. lia.
  - cbn [foldl]. rewrite IH, filter_cons.
    cbn [Ingestion.tally_step Ingestion.tally_local_ai].
    destruct (Parser.local_ai _); simpl; lia.
Qed.

Lemma difficulty_partition workflows :
  length (filter (λ wf, Parser.difficulty_value (Parser.difficulty wf)
                        = "beginner") workflows)
  + length (filter (λ wf, Parser.difficulty_value (Parser.difficulty wf)
                          = "intermediate") workflows)
  + length (filter (λ wf, Parser.difficulty_value (Parser.difficulty wf)
                          = "advanced") workflows)
  = length workflows.
Proof.
  induction workflows as [|wf l IH]; [done|].
  rewrite !filter_cons. destruct (Parser.difficulty wf);
    repeat case_decide; try done; simpl; lia.
Qed.

(** X30: the summary of a non-empty list of workflows counts each of
    them once: total_workflows is their number, the three difficulty
    counters add up to it, the counter of a category or of a status is
    the number of workflows that have it, and local_ai_workflows is the
    number of workflows with a local-AI node.  An empty list gives the
    empty summary. *)
Theorem generate_summary_counts workflows :
  match Ingestion.generate_summary workflows with
  | None => workflows = []
  | Some summary =>
      workflows ≠ [] ∧
      Ingestion.total_workflows summary = length workflows ∧
      default 0 (Ingestion.difficulties summary !! "beginner")
      + default 0 (Ingestion.difficulties summary !! "intermediate")
      + default 0 (Ingestion.difficulties summary !! "advanced")
        = length workflows ∧
      (∀ c, default 0 (Ingestion.categories summary !! c)
            = length (filter (λ wf, Parser.category wf = c) workflows)) ∧
      (∀ status,
         default 0 (Ingestion.compatibility_statuses summary !! status)
         = length (filter (λ wf, Parser.status_value
                                   (Parser.status (Parser.compatibility wf))
                                 = status) workflows)) ∧
      Ingestion.local_ai_workflows summary
        = length (filter (λ wf, Parser.local_ai (Parser.compatibility wf)
                                = true) workflows)
  end.
Proof.
  unfold Ingestion.generate_summary.
  destruct workflows as [|wf0 l] eqn:Hws; [done|]. rewrite <-Hws.
  assert (workflows ≠ []) as Hne by (by rewrite Hws). clear Hws.
  cbn [Ingestion.total_workflows Ingestion.difficulties Ingestion.categories
       Ingestion.compatibility_statuses Ingestion.local_ai_workflows].
  split_and!; try done.
  - rewrite !(tally_counts
                (λ wf, Parser.difficulty_value (Parser.difficulty wf))
                Ingestion.tally_difficulties) by done.
    pose proof (difficulty_partition workflows) as Hpart.
    replace (default 0 (Ingestion.tally_difficulties Ingestion.tally_init
                          !! "beginner")) with 0 by (by vm_compute).
    replace (default 0 (Ingestion.tally_difficulties Ingestion.tally_init
                          !! "intermediate")) with 0 by (by vm_compute).
    replace (default 0 (Ingestion.tally_difficulties Ingestion.tally_init
                          !! "advanced")) with 0 by (by vm_compute).
    lia.
  - intros c.
    by rewrite (tally_counts Parser.category Ingestion.tally_categories).
  - intros status.
    by rewrite (tally_counts
                  (λ wf, Parser.status_value
                           (Parser.status (Parser.compatibility wf)))
                  Ingestion.tally_statuses).
  - by rewrite tally_local_ai_loop.
Qed.

End summary_extras.
